(** * NuvioStreaming: Android TV device detection, remote events, tab layout

    A shallow embedding of

    - [hooks/useTVDevice.ts]: [detectTVDevice], [isAndroidTV],
      [calculateTVDimensions], the [useTVDevice] hook with its two
      [useMemo] cells and the [useRemoteHandler] effect;
    - [components/navigation/TVTabLayout.tsx]: the [SCREEN_COMPONENTS]
      table and the selection of the current screen.

    JavaScript numbers that carry measurements (window width and height,
    scaled sizes) are IEEE-754 binary64 values and are modelled by Rocq's
    primitive floats, so [/], [*], [>=] and the literals [1.7] and [2.4]
    mean here exactly what they mean in the source.  Key-action codes and
    view tags are integer codes handed over by the native side and are
    modelled in [Z]; an absent optional field is [None]. *)

From Stdlib Require Import ZArith Bool List Floats Uint63.
From stdpp Require Import base option list strings gmap.
Import ListNotations.

Set Warnings "-inexact-float".
Local Open Scope Z_scope.

(** ** The fragment of the JavaScript runtime the sources rely on *)

Module JS.

(** A JavaScript [number]. *)
Abbreviation number := float.

(** An integer of magnitude below 2^53 as a [number] (exact). *)
Definition of_Z (n : Z) : number :=
  match n with
  | Z0 => PrimFloat.zero
  | Zpos p => PrimFloat.of_uint63 (Uint63.of_Z (Zpos p))
  | Zneg p => PrimFloat.opp (PrimFloat.of_uint63 (Uint63.of_Z (Zpos p)))
  end.

(** [Math.round(x)]: the integral number closest to [x], ties going
    towards +infinity; [x] itself when [x] is already integral, NaN or
    infinite; [-0] for [x] in [[-0.5, 0)] and for [-0].

    A finite non-zero [x] is [(-1)^s * m * 2^e].  When [e >= 0] it is
    integral.  Otherwise [floor (x + 1/2)] is computed exactly as
    [floor ((2 * (+-m) + 2^-e) / 2^(1-e))]; its magnitude is below
    2^53, so the conversion back is exact. *)
Definition Math_round (x : number) : number :=
  match Prim2SF x with
  | S754_finite s m e =>
      if (0 <=? e)%Z then x
      else
        let num := if s then Zneg m else Zpos m in
        let n := (2 * num + 2 ^ (- e)) / 2 ^ (- e + 1) in
        if (n =? 0)%Z then (if s then PrimFloat.neg_zero else PrimFloat.zero)
        else of_Z n
  | _ => x
  end.

(** [a >= b] and [a > b] on numbers. *)
Definition ge (a b : number) : bool := PrimFloat.leb b a.
Definition gt (a b : number) : bool := PrimFloat.ltb b a.
Definition le (a b : number) : bool := PrimFloat.leb a b.

(** [Number.isNaN(x)]: NaN is the one number that differs from itself. *)
Definition isNaN (x : number) : bool := negb (PrimFloat.eqb x x).

(** Whether [x] is the negative zero. *)
Definition is_neg_zero (x : number) : bool :=
  match Prim2SF x with
  | S754_zero true => true
  | _ => false
  end.

(** [Math.max(a, b)]: NaN when an argument is NaN, else the larger one,
    [+0] counting as larger than [-0]. *)
Definition Math_max (a b : number) : number :=
  if isNaN a || isNaN b then PrimFloat.nan
  else if PrimFloat.ltb a b then b
  else if PrimFloat.ltb b a then a
  else if is_neg_zero a then b
  else a.

End JS.

(** ** hooks/useTVDevice.ts *)

Module TVDevice.

Import JS.

(** *** The host: [Platform] and [Dimensions.get('window')] *)

Record PlatformT : Type := mkPlatform {
  isTV : bool;        (* Platform.isTV *)
  OS : string         (* Platform.OS *)
}.

Record ScaledSize : Type := mkWindow {
  width : number;
  height : number
}.

Record Host : Type := mkHost {
  Platform : PlatformT;
  Dimensions_window : ScaledSize    (* Dimensions.get('window') *)
}.

Definition TV_MIN_WIDTH : number := 1280%float.
Definition TV_MIN_HEIGHT : number := 720%float.

(** *** [detectTVDevice] *)

Definition detectTVDevice (host : Host) (forceTVMode : bool) : bool :=
  if forceTVMode then true
  else if isTV (Platform host) then true
  else
    if String.eqb (OS (Platform host)) "android" then
      let width := width (Dimensions_window host) in
      let height := height (Dimensions_window host) in
      let isLandscape := gt width height in
      let isLargeScreen := ge width TV_MIN_WIDTH && ge height TV_MIN_HEIGHT in
      if isLandscape && isLargeScreen then
        let aspectRatio := (width / height)%float in
        let isTVAspectRatio := ge aspectRatio 1.7%float && le aspectRatio 2.4%float in
        isTVAspectRatio
      else false
    else false.

(** *** [isAndroidTV] *)

Definition isAndroidTV (host : Host) : bool :=
  if isTV (Platform host) then true
  else
    if String.eqb (OS (Platform host)) "android" then
      let width := width (Dimensions_window host) in
      let height := height (Dimensions_window host) in
      if ge width TV_MIN_WIDTH && ge height TV_MIN_HEIGHT && gt width height then
        let aspectRatio := (width / height)%float in
        ge aspectRatio 1.7%float && le aspectRatio 2.4%float
      else false
    else false.

(** *** [calculateTVDimensions] *)

Record FontSize : Type := mkFontSize {
  title : number;
  body : number;
  caption : number
}.

Record Spacing : Type := mkSpacing {
  small : number;
  medium : number;
  large : number
}.

Record TVDimensions : Type := mkTVDimensions {
  posterWidth : number;
  posterHeight : number;
  iconSize : number;
  fontSize : FontSize;
  spacing : Spacing;
  focusBorderWidth : number
}.

Definition calculateTVDimensions (host : Host) : TVDimensions :=
  let width := width (Dimensions_window host) in
  let baseWidth := 1920%float in
  let scale := (width / baseWidth)%float in
  {| posterWidth := Math_round (200 * scale)%float;
     posterHeight := Math_round (300 * scale)%float;
     iconSize := Math_round (32 * scale)%float;
     fontSize :=
       {| title := Math_round (28 * scale)%float;
          body := Math_round (20 * scale)%float;
          caption := Math_round (16 * scale)%float |};
     spacing :=
       {| small := Math_round (8 * scale)%float;
          medium := Math_round (16 * scale)%float;
          large := Math_round (32 * scale)%float |};
     focusBorderWidth := Math_round (4 * scale)%float |}.

(** *** Remote events *)

(** The values of [TV_REMOTE_KEYS], i.e. the members of the type
    [TVRemoteKey]. *)
Definition TV_REMOTE_KEYS : list string :=
  ["up"; "down"; "left"; "right"; "select";
   "playPause"; "rewind"; "fastForward"; "back"; "menu"].

(** ['up' | 'down' | 'long-press'] *)
Inductive KeyAction : Type := key_up | key_down | key_long_press.

#[export] Instance KeyAction_eq_dec : EqDecision KeyAction.
Proof. solve_decision. Defined.

(** [TVRemoteEvent].  The field [eventType] is declared [TVRemoteKey];
    that type is erased at run time, where the field holds a string. *)
Record TVRemoteEvent : Type := mkTVRemoteEvent {
  eventType : string;
  eventKeyAction : KeyAction;
  tag : option Z
}.

#[export] Instance TVRemoteEvent_eq_dec : EqDecision TVRemoteEvent.
Proof. solve_decision. Defined.

(** react-native's [HWEvent]: [eventKeyAction] and [tag] are optional. *)
Record HWEvent : Type := mkHWEvent {
  hw_eventType : string;
  hw_eventKeyAction : option Z;
  hw_tag : option Z
}.

(** [v === n] for an optional numeric field [v] and a literal [n]. *)
Definition strict_eq (v : option Z) (n : Z) : bool :=
  match v with
  | Some x => (x =? n)%Z
  | None => false
  end.

(** The conditional expression that fills [event.eventKeyAction]. *)
Definition mapKeyAction (code : option Z) : KeyAction :=
  if strict_eq code 0 then key_down
  else if strict_eq code 1 then key_up
  else key_long_press.

(** A consumer's handler is a JavaScript function: it has an identity
    (compared in dependency arrays) and calling it is recorded in a
    log as the pair of that identity and the argument. *)
Definition Handler : Type := nat.
Definition Call : Type := (Handler * TVRemoteEvent)%type.

(** The callback passed to [tvEventHandler.enable], closed over
    [handler]; a null or undefined notification is [None].  The result
    lists the handler calls it makes. *)
Definition onHWEvent (handler : Handler) (hwEvent : option HWEvent) : list Call :=
  match hwEvent with
  | None => []
  | Some hw =>
      let event :=
        {| eventType := hw_eventType hw;
           eventKeyAction := mapKeyAction (hw_eventKeyAction hw);
           tag := hw_tag hw |} in
      if bool_decide (eventKeyAction event = key_down)
         || bool_decide (eventKeyAction event = key_long_press)
      then [(handler, event)]
      else []
  end.

(** *** React: [useMemo] *)

Record Memo (D A : Type) : Type := mkMemo {
  memo_deps : D;
  memo_value : A
}.
Arguments mkMemo {D A} _ _.
Arguments memo_deps {D A} _.
Arguments memo_value {D A} _.

(** [useMemo(factory, deps)] on a hook cell: the first render calls
    [factory]; a later render calls it again only when [deps] differ
    from the stored ones. *)
Definition useMemo {D A : Type} `{EqDecision D}
    (cell : option (Memo D A)) (factory : unit -> A) (deps : D) : Memo D A :=
  match cell with
  | Some c => if decide (memo_deps c = deps) then c else mkMemo deps (factory tt)
  | None => mkMemo deps (factory tt)
  end.

(** [settings.forceTVMode] may be undefined. *)
Record Settings : Type := mkSettings {
  forceTVMode : option bool
}.

(** The two memo cells of [useTVDevice]:
    [isTVDevice] with dependencies [[settings.forceTVMode]] and
    [tvDimensions] with dependencies [[]]. *)
Record Memos : Type := mkMemos {
  isTVDevice_cell : Memo (option bool) bool;
  tvDimensions_cell : Memo unit TVDimensions
}.

Definition isTVDevice (m : Memos) : bool := memo_value (isTVDevice_cell m).
Definition tvDimensions (m : Memos) : TVDimensions := memo_value (tvDimensions_cell m).

(** One render of [useTVDevice]; [prev] is [None] on the first. *)
Definition useTVDevice (prev : option Memos) (host : Host) (settings : Settings) : Memos :=
  {| isTVDevice_cell :=
       useMemo (isTVDevice_cell <$> prev)
         (fun _ => detectTVDevice host (default false (forceTVMode settings)))
         (forceTVMode settings);
     tvDimensions_cell :=
       useMemo (tvDimensions_cell <$> prev)
         (fun _ => calculateTVDimensions host)
         tt |}.

(** A component rendered once per element of a list, each time under
    the host and settings current at that render. *)
Definition renders (rs : list (Host * Settings)) : option Memos :=
  fold_left (fun prev r => Some (useTVDevice prev (fst r) (snd r))) rs None.

(** *** React: the effect of [useRemoteHandler] and the lifecycle of
    one registration

    This part follows a single registration: one component that calls
    [useTVDevice()] and then [useRemoteHandler] once per render.
    Several components, and components that call [useRemoteHandler]
    several times, are the subject of [Consumers] below, which runs the
    same effect code.

    [useRemoteHandler] is a [useCallback] keyed on [isTVDevice] whose
    body reads nothing else from the render, so calling it amounts to
    one [useEffect] with dependencies [[handler, isTVDevice]].

    A [TVEventHandler] object is identified by the order of its
    creation; [enabled] lists the objects on which [enable] was called
    and [disable] was not, each with the handler its callback closes
    over: these are the live subscriptions to the hardware input. *)

Definition ObjId : Type := nat.

Record EffectRecord : Type := mkEffect {
  effect_deps : Handler * bool;     (* [handler, isTVDevice] of the last run *)
  effect_cleanup : bool             (* whether that run returned its cleanup *)
}.

Record World : Type := mkWorld {
  next_id : ObjId;                          (* objects created so far *)
  enabled : list (ObjId * Handler);         (* live subscriptions *)
  calls : list Call;                        (* handler calls made so far *)
  mounted : option Memos;                   (* hook cells of the mounted component *)
  tvEventHandlerRef : option ObjId;         (* tvEventHandlerRef.current *)
  remoteEffect : option EffectRecord        (* the effect's hook cell *)
}.

Definition init : World := mkWorld 0%nat [] [] None None None.

(** [obj.disable()] *)
Definition disable (obj : ObjId) (subs : list (ObjId * Handler)) : list (ObjId * Handler) :=
  filter (fun s => fst s ≠ obj) subs.

(** The function the effect returns. *)
Definition remoteEffect_cleanup (w : World) : World :=
  match tvEventHandlerRef w with
  | Some current =>
      mkWorld (next_id w) (disable current (enabled w)) (calls w)
              (mounted w) None (remoteEffect w)
  | None => w
  end.

(** The body of the effect; the boolean tells whether it returned the
    cleanup function (it does not when the device is not a TV). *)
Definition remoteEffect_body (handler : Handler) (isTVDevice : bool) (w : World)
    : World * bool :=
  if negb isTVDevice then (w, false)
  else
    let tvEventHandler := next_id w in
    (mkWorld (S (next_id w)) (enabled w ++ [(tvEventHandler, handler)]) (calls w)
             (mounted w) (Some tvEventHandler) (remoteEffect w),
     true).

Definition remoteEffect_run (deps : Handler * bool) (w : World) : World :=
  let '(w1, c) := remoteEffect_body (fst deps) (snd deps) w in
  mkWorld (next_id w1) (enabled w1) (calls w1) (mounted w1) (tvEventHandlerRef w1)
          (Some (mkEffect deps c)).

(** [useEffect(body, deps)] at commit: run on mount; afterwards, when
    a dependency changed, first the previous cleanup, then the body. *)
Definition useEffect_commit (deps : Handler * bool) (w : World) : World :=
  match remoteEffect w with
  | None => remoteEffect_run deps w
  | Some r =>
      if decide (effect_deps r = deps) then w
      else remoteEffect_run deps (if effect_cleanup r then remoteEffect_cleanup w else w)
  end.

Inductive Action : Type :=
| Render (host : Host) (settings : Settings) (handler : Handler)
| Unmount
| Emit (hwEvent : option HWEvent).

Definition step (a : Action) (w : World) : World :=
  match a with
  | Render host settings handler =>
      let m := useTVDevice (mounted w) host settings in
      useEffect_commit (handler, isTVDevice m)
        (mkWorld (next_id w) (enabled w) (calls w) (Some m)
                 (tvEventHandlerRef w) (remoteEffect w))
  | Unmount =>
      match remoteEffect w with
      | Some r =>
          let w1 := if effect_cleanup r then remoteEffect_cleanup w else w in
          mkWorld (next_id w1) (enabled w1) (calls w1) None None None
      | None => w
      end
  | Emit hwEvent =>
      mkWorld (next_id w) (enabled w)
              (calls w ++ flat_map (fun s => onHWEvent (snd s) hwEvent) (enabled w))
              (mounted w) (tvEventHandlerRef w) (remoteEffect w)
  end.

Definition exec (tr : list Action) (w : World) : World :=
  fold_left (fun w a => step a w) tr w.

Inductive reachable : World -> Prop :=
| reachable_init : reachable init
| reachable_step a w : reachable w -> reachable (step a w).

(** The handlers that a hardware notification can currently reach. *)
Definition live_handlers (w : World) : list Handler := map snd (enabled w).

(** The shape of every state the lifecycle can reach: without an
    effect cell nothing is mounted and nothing is subscribed; with
    one, the ref and the live subscriptions are those of its last
    run. *)
Definition lifecycle_inv (w : World) : Prop :=
  match remoteEffect w with
  | None => mounted w = None /\ tvEventHandlerRef w = None /\ enabled w = []
  | Some r =>
      (exists m, mounted w = Some m /\ isTVDevice m = snd (effect_deps r)) /\
      if effect_cleanup r
      then snd (effect_deps r) = true /\
           exists obj, tvEventHandlerRef w = Some obj /\
                       enabled w = [(obj, fst (effect_deps r))] /\
                       (obj < next_id w)%nat
      else snd (effect_deps r) = false /\
           tvEventHandlerRef w = None /\ enabled w = []
  end.

(** *** The specification's vocabulary, for comparison *)

(** The phases of a remote event as the specification names them. *)
Inductive Phase : Type := Pressed | Released | LongPressed.

Definition phase_of (a : KeyAction) : Phase :=
  match a with
  | key_down => Pressed
  | key_up => Released
  | key_long_press => LongPressed
  end.

(** The specification's table of base values, in the order poster
    width and height, icon, title, body and caption font, the three
    spacings, focus border. *)
Definition base_values : list number :=
  [200; 300; 32; 28; 20; 16; 8; 16; 32; 4]%float.

(** The specification's [computeScaleMetrics]: every metric is
    [round (base * scale)] with [scale = viewportWidth / 1920]. *)
Definition computeScaleMetrics (viewportWidth : number) : list number :=
  let scale := (viewportWidth / 1920)%float in
  map (fun base => Math_round (base * scale)%float) base_values.

(** The fields of a [TVDimensions], in the order of [base_values]. *)
Definition metrics (d : TVDimensions) : list number :=
  [posterWidth d; posterHeight d; iconSize d;
   title (fontSize d); body (fontSize d); caption (fontSize d);
   small (spacing d); medium (spacing d); large (spacing d);
   focusBorderWidth d].

(** An Android host that does not report [Platform.isTV]. *)
Definition android_window (w h : number) : Host :=
  mkHost (mkPlatform false "android") (mkWindow w h).

End TVDevice.

(** ** components/navigation/TVTabLayout.tsx *)

Module TVTabLayout.

(** The imported screen components. *)
Inductive Component : Type :=
| HomeScreen | LibraryScreen | SearchScreen | DownloadsScreen | SettingsScreen.

(** What a property read on [SCREEN_COMPONENTS] can yield besides
    [undefined]: a screen, or a member inherited from
    [Object.prototype] (a built-in function, or the prototype object
    itself for [__proto__]).  All of these are truthy. *)
Inductive Value : Type :=
| VComponent (c : Component)
| VObjectPrototypeMember (name : string).

(** The own properties of the object literal. *)
Definition SCREEN_COMPONENTS : gmap string Component :=
  <["Home" := HomeScreen]>
  (<["Library" := LibraryScreen]>
  (<["Search" := SearchScreen]>
  (<["Downloads" := DownloadsScreen]>
  (<["Settings" := SettingsScreen]> ∅)))).

(** The property names of [Object.prototype], the prototype of every
    object literal. *)
Definition Object_prototype : list string :=
  ["constructor"; "hasOwnProperty"; "isPrototypeOf"; "propertyIsEnumerable";
   "toLocaleString"; "toString"; "valueOf"; "__proto__";
   "__defineGetter__"; "__defineSetter__"; "__lookupGetter__"; "__lookupSetter__"].

(** [SCREEN_COMPONENTS[key]]: an own property, else one found on the
    prototype, else [undefined] ([None]). *)
Definition get (key : string) : option Value :=
  match SCREEN_COMPONENTS !! key with
  | Some c => Some (VComponent c)
  | None =>
      if bool_decide (key ∈ Object_prototype)
      then Some (VObjectPrototypeMember key)
      else None
  end.

(** [SCREEN_COMPONENTS[activeRoute] || HomeScreen] *)
Definition CurrentScreen (activeRoute : string) : Value :=
  match get activeRoute with
  | Some v => v
  | None => VComponent HomeScreen
  end.

Record TVNavigationItem : Type := mkItem {
  key : string;
  label : string;
  icon : string
}.

Definition getNavigationItems (enableDownloads : bool) : list TVNavigationItem :=
  let items :=
    [mkItem "Home" "Home" "home";
     mkItem "Library" "Library" "heart";
     mkItem "Search" "Search" "search"] in
  let items :=
    if enableDownloads then items ++ [mkItem "Downloads" "Downloads" "download"]
    else items in
  items ++ [mkItem "Settings" "Settings" "settings"].

(** The component's state: the two [useState] cells and the ref. *)
Record State : Type := mkState {
  activeRoute : string;
  isRailFocused : bool;
  previousRouteRef : string
}.

(** First render; an omitted [initialRoute] defaults to ['Home']. *)
Definition mount (initialRoute : option string) : State :=
  let initialRoute := default "Home" initialRoute in
  mkState initialRoute false initialRoute.

Definition handleItemPress (st : State) (key : string) : State :=
  if bool_decide (key ≠ activeRoute st)
  then mkState key false (activeRoute st)
  else mkState (activeRoute st) false (previousRouteRef st).

(** The element type rendered in the main content area. *)
Definition render (st : State) : Value := CurrentScreen (activeRoute st).

(** The keys the component map registers. *)
Definition registered : list string :=
  ["Home"; "Library"; "Search"; "Downloads"; "Settings"].

End TVTabLayout.

(** ** styles/tvStyles.ts *)

Module TVStyles.

Import JS TVDevice.

Record Focus : Type := mkFocus {
  focus_borderWidth : number;
  focus_borderColor : string;
  focus_borderColorSecondary : string;
  focus_scale : number;
  focus_animationDuration : number;
  focus_shadowColor : string;
  focus_shadowOpacity : number;
  focus_shadowRadius : number
}.

Record StyleFontSize : Type := mkStyleFontSize {
  font_hero : number;
  font_title : number;
  font_subtitle : number;
  font_body : number;
  font_caption : number;
  font_button : number
}.

Record StyleSpacing : Type := mkStyleSpacing {
  xs : number;
  sm : number;
  md : number;
  lg : number;
  xl : number;
  xxl : number
}.

Record Poster : Type := mkPoster {
  poster_width : number;
  poster_height : number;
  poster_borderRadius : number
}.

Record NavRail : Type := mkNavRail {
  navRail_width : number;
  navRail_expandedWidth : number;
  navRail_iconSize : number;
  navRail_itemHeight : number
}.

Record Player : Type := mkPlayer {
  controlSize : number;
  progressHeight : number;
  controlSpacing : number
}.

Record Button : Type := mkButton {
  button_height : number;
  button_minWidth : number;
  button_borderRadius : number;
  button_iconSize : number
}.

Record Card : Type := mkCard {
  card_minHeight : number;
  card_borderRadius : number;
  card_padding : number
}.

Record Styles : Type := mkStyles {
  focus : Focus;
  minTouchTarget : number;
  fontSize : StyleFontSize;
  spacing : StyleSpacing;
  poster : Poster;
  navRail : NavRail;
  player : Player;
  button : Button;
  card : Card
}.

(** [SCALE], from the window the host reports when the module loads. *)
Definition SCALE (host : Host) : number :=
  (width (Dimensions_window host) / 1920)%float.

(** [TV_STYLES], for the host under which the module is loaded. *)
Definition TV_STYLES (host : Host) : Styles :=
  let SCALE := SCALE host in
  {| focus :=
       {| focus_borderWidth := Math_max 3 (Math_round (4 * SCALE)%float);
          focus_borderColor := "#FFFFFF";
          focus_borderColorSecondary := "rgba(255, 255, 255, 0.6)";
          focus_scale := 1.05%float;
          focus_animationDuration := 150%float;
          focus_shadowColor := "#FFFFFF";
          focus_shadowOpacity := 0.3%float;
          focus_shadowRadius := 12%float |};
     minTouchTarget := Math_max 48 (Math_round (48 * SCALE)%float);
     fontSize :=
       {| font_hero := Math_round (48 * SCALE)%float;
          font_title := Math_round (28 * SCALE)%float;
          font_subtitle := Math_round (22 * SCALE)%float;
          font_body := Math_round (20 * SCALE)%float;
          font_caption := Math_round (16 * SCALE)%float;
          font_button := Math_round (18 * SCALE)%float |};
     spacing :=
       {| xs := Math_round (4 * SCALE)%float;
          sm := Math_round (8 * SCALE)%float;
          md := Math_round (16 * SCALE)%float;
          lg := Math_round (24 * SCALE)%float;
          xl := Math_round (32 * SCALE)%float;
          xxl := Math_round (48 * SCALE)%float |};
     poster :=
       {| poster_width := Math_round (200 * SCALE)%float;
          poster_height := Math_round (300 * SCALE)%float;
          poster_borderRadius := Math_round (12 * SCALE)%float |};
     navRail :=
       {| navRail_width := Math_round (80 * SCALE)%float;
          navRail_expandedWidth := Math_round (240 * SCALE)%float;
          navRail_iconSize := Math_round (28 * SCALE)%float;
          navRail_itemHeight := Math_round (64 * SCALE)%float |};
     player :=
       {| controlSize := Math_round (64 * SCALE)%float;
          progressHeight := Math_round (8 * SCALE)%float;
          controlSpacing := Math_round (24 * SCALE)%float |};
     button :=
       {| button_height := Math_round (56 * SCALE)%float;
          button_minWidth := Math_round (120 * SCALE)%float;
          button_borderRadius := Math_round (28 * SCALE)%float;
          button_iconSize := Math_round (24 * SCALE)%float |};
     card :=
       {| card_minHeight := Math_round (80 * SCALE)%float;
          card_borderRadius := Math_round (8 * SCALE)%float;
          card_padding := Math_round (16 * SCALE)%float |} |}.

(** The entries of [TV_STYLES] that the hook's [tvDimensions] also
    has, in the order of [TVDevice.metrics], the focus border left
    out: poster width and height, title, body and caption font, and
    the spacings [sm], [md] and [xl].  (The hook's icon size, 32, has
    no counterpart: the rail's is 28 and the button's 24.) *)
Definition shared_metrics (st : Styles) : list number :=
  [poster_width (poster st); poster_height (poster st);
   font_title (fontSize st); font_body (fontSize st); font_caption (fontSize st);
   sm (spacing st); md (spacing st); xl (spacing st)].

Definition shared_dimensions (d : TVDimensions) : list number :=
  [posterWidth d; posterHeight d;
   title (TVDevice.fontSize d); body (TVDevice.fontSize d);
   caption (TVDevice.fontSize d);
   small (TVDevice.spacing d); medium (TVDevice.spacing d);
   large (TVDevice.spacing d)].

End TVStyles.

(** ** components/ui/TVFocusable.tsx *)

Module TVFocusable.

Import JS TVDevice.

(** The props the handlers read.  The three callbacks are optional;
    a flag tells whether each was passed. *)
Record Props : Type := mkProps {
  disabled : bool;
  scaleOnFocus : bool;
  focusScale : number;
  showFocusBorder : bool;
  onFocus : bool;
  onBlur : bool;
  onPress : bool
}.

(** A call of one of the callbacks passed in the props. *)
Inductive Callback : Type := OnFocus | OnBlur | OnPress.

#[export] Instance Callback_eq_dec : EqDecision Callback.
Proof. solve_decision. Defined.

(** The component's state: the [useState] cell, and for each of the
    two animated values the [toValue] of the animation started last
    on it (the initial value while none was started); [log] records
    the callbacks called. *)
Record State : Type := mkState {
  isFocused : bool;
  scaleAnim : number;
  borderOpacityAnim : number;
  log : list Callback
}.

Definition initial : State := mkState false 1%float 0%float [].

Definition handleFocus (p : Props) (st : State) : State :=
  mkState true
    (if scaleOnFocus p then focusScale p else scaleAnim st)
    (if showFocusBorder p then 1%float else borderOpacityAnim st)
    (if onFocus p then log st ++ [OnFocus] else log st).

Definition handleBlur (p : Props) (st : State) : State :=
  mkState false
    (if scaleOnFocus p then 1%float else scaleAnim st)
    (if showFocusBorder p then 0%float else borderOpacityAnim st)
    (if onBlur p then log st ++ [OnBlur] else log st).

Definition handlePress (p : Props) (st : State) : State :=
  if negb (disabled p)
  then mkState (isFocused st) (scaleAnim st) (borderOpacityAnim st)
         (if onPress p then log st ++ [OnPress] else log st)
  else st.

(** What the rendered [TouchableOpacity] can report. *)
Inductive Event : Type := Focus | Blur | Press.

#[export] Instance Event_eq_dec : EqDecision Event.
Proof. solve_decision. Defined.

(** On a TV the three handlers are attached; otherwise only
    [onPress] is, and focus changes reach no handler. *)
Definition dispatch (host : Host) (p : Props) (st : State) (ev : Event) : State :=
  if negb (isAndroidTV host) then
    match ev with
    | Press => handlePress p st
    | Focus | Blur => st
    end
  else
    match ev with
    | Press => handlePress p st
    | Focus => handleFocus p st
    | Blur => handleBlur p st
    end.

Definition run (host : Host) (p : Props) (evs : list Event) : State :=
  fold_left (dispatch host p) evs initial.

End TVFocusable.

(** ** components/navigation/TVNavigationRail.tsx and its use in
    TVTabLayout.tsx *)

Module TVNavigationRail.

Import JS TVTabLayout.

(** The props each [NavItem] is rendered with. *)
Record NavItemProps : Type := mkNavItemProps {
  item : TVNavigationItem;
  isActive : bool;
  index : nat;
  hasTVPreferredFocus : bool
}.

(** [items.map((item, index) => <NavItem ... />)] *)
Definition NavItems (activeRoute : string) (items : list TVNavigationItem)
    (isFocused : bool) : list NavItemProps :=
  imap (fun index item =>
          {| item := item;
             isActive := bool_decide (activeRoute = key item);
             index := index;
             hasTVPreferredFocus := Nat.eqb index 0 && isFocused |})
       items.

(** The [toValue] of the rail's opacity animation. *)
Definition railOpacity_toValue (isFocused : bool) : number :=
  if isFocused then 1%float else 0.7%float.

(** [handleFocusExit] of TVTabLayout. *)
Definition handleFocusExit (st : State) : State :=
  mkState (activeRoute st) false (previousRouteRef st).

(** What can reach TVTabLayout's two callbacks: [onItemPress] with a
    key, [onFocusExit]. *)
Inductive Event : Type :=
| ItemPress (key : string)
| FocusExit.

Definition handle (st : State) (ev : Event) : State :=
  match ev with
  | ItemPress key => handleItemPress st key
  | FocusExit => handleFocusExit st
  end.

(** The state cells after the callbacks ran, whether or not the
    renders in between succeed; [session] below follows the layout
    only while it is on screen. *)
Definition run (initialRoute : option string) (evs : list Event) : State :=
  fold_left handle evs (mount initialRoute).

(** Whether React can render the main content area: the element type
    must be a component.  With any other value there (a member
    inherited from [Object.prototype]) the render throws. *)
Definition render_ok (st : State) : bool :=
  match render st with
  | VComponent _ => true
  | VObjectPrototypeMember _ => false
  end.

(** The mounted layout through its renders: the first render, then
    one after each event.  [None] once a render has thrown: the layout
    is not on screen any more and no rail item can be pressed. *)
Definition session (initialRoute : option string) (evs : list Event) : option State :=
  fold_left
    (fun alive ev =>
       match alive with
       | Some st => if render_ok (handle st ev) then Some (handle st ev) else None
       | None => None
       end)
    evs
    (if render_ok (mount initialRoute) then Some (mount initialRoute) else None).

(** The rail as TVTabLayout renders it. *)
Definition rail (enableDownloads : bool) (st : State) : list NavItemProps :=
  NavItems (activeRoute st) (getNavigationItems enableDownloads) (isRailFocused st).

(** The screen each registered key stands for. *)
Definition screen_of (route : string) : option Component :=
  SCREEN_COMPONENTS !! route.

End TVNavigationRail.

(** ** hooks/useTVDevice.ts with any number of consumers

    [TVDevice.World] above is the lifecycle of one registration: a
    single component that calls [useRemoteHandler] once per render.
    Here any number of components are mounted at a time, each with the
    hook cells of its own [useTVDevice()] (two memo cells, one ref) and
    one effect cell per [useRemoteHandler] call it makes.  All of them
    share the host's hardware input.  The effect code is the one above,
    run on the store a component sees: the shared subscriptions and its
    own ref. *)

Module Consumers.

Import TVDevice.

Definition CompId : Type := nat.

Record Component : Type := mkComponent {
  comp_memos : Memos;                 (* the cells of its useTVDevice() *)
  comp_ref : option ObjId;            (* its tvEventHandlerRef.current *)
  comp_effects : list EffectRecord    (* one cell per useRemoteHandler call *)
}.

Record System : Type := mkSystem {
  sys_next_id : ObjId;
  sys_enabled : list (ObjId * Handler);
  sys_calls : list Call;
  components : gmap CompId Component
}.

Definition sys_init : System := mkSystem 0%nat [] [] ∅.

(** What the effects of a component read and write. *)
Definition store (s : System) (m : Memos) (ref : option ObjId) : World :=
  mkWorld (sys_next_id s) (sys_enabled s) (sys_calls s) (Some m) ref None.

(** One effect cell at commit, with its previous record ([None] on
    mount) and its new dependencies.  React first runs the cleanups of
    all the effects whose dependencies changed, then their bodies. *)
Definition cleanup_cell (o : option EffectRecord) (d : Handler * bool) (w : World) : World :=
  match o with
  | Some r =>
      if decide (effect_deps r = d) then w
      else if effect_cleanup r then remoteEffect_cleanup w else w
  | None => w
  end.

Definition body_cell (o : option EffectRecord) (d : Handler * bool) (w : World)
    : World * EffectRecord :=
  let run :=
    let '(w1, c) := remoteEffect_body (fst d) (snd d) w in (w1, mkEffect d c) in
  match o with
  | Some r => if decide (effect_deps r = d) then (w, r) else run
  | None => run
  end.

Fixpoint run_cleanups (cells : list (option EffectRecord * (Handler * bool))) (w : World)
    : World :=
  match cells with
  | [] => w
  | (o, d) :: cells' => run_cleanups cells' (cleanup_cell o d w)
  end.

Fixpoint run_bodies (cells : list (option EffectRecord * (Handler * bool))) (w : World)
    : World * list EffectRecord :=
  match cells with
  | [] => (w, [])
  | (o, d) :: cells' =>
      let '(w1, r) := body_cell o d w in
      let '(w2, rs) := run_bodies cells' w1 in
      (w2, r :: rs)
  end.

(** On unmount every effect that returned a cleanup runs it. *)
Fixpoint unmount_cleanups (cells : list EffectRecord) (w : World) : World :=
  match cells with
  | [] => w
  | r :: cells' =>
      unmount_cleanups cells' (if effect_cleanup r then remoteEffect_cleanup w else w)
  end.

(** A render of component [c] that calls [useRemoteHandler] once for
    each of [handlers], in this order; the unmount of [c]; a hardware
    notification. *)
Inductive Action : Type :=
| CRender (c : CompId) (host : Host) (settings : Settings) (handlers : list Handler)
| CUnmount (c : CompId)
| CEmit (hwEvent : option HWEvent).

Definition cstep (a : Action) (s : System) : System :=
  match a with
  | CRender c host settings handlers =>
      let prev := components s !! c in
      let m := useTVDevice (comp_memos <$> prev) host settings in
      let olds :=
        match prev with
        | Some comp => Some <$> comp_effects comp
        | None => (fun _ => None) <$> handlers
        end in
      let deps := (fun handler => (handler, isTVDevice m)) <$> handlers in
      let w0 := store s m (prev ≫= comp_ref) in
      let w1 := run_cleanups (zip olds deps) w0 in
      let '(w2, cells) := run_bodies (zip olds deps) w1 in
      mkSystem (next_id w2) (enabled w2) (calls w2)
               (<[c := mkComponent m (tvEventHandlerRef w2) cells]> (components s))
  | CUnmount c =>
      match components s !! c with
      | Some comp =>
          let w1 := unmount_cleanups (comp_effects comp)
                      (store s (comp_memos comp) (comp_ref comp)) in
          mkSystem (next_id w1) (enabled w1) (calls w1) (delete c (components s))
      | None => s
      end
  | CEmit hwEvent =>
      mkSystem (sys_next_id s) (sys_enabled s)
               (sys_calls s ++ flat_map (fun x => onHWEvent (snd x) hwEvent) (sys_enabled s))
               (components s)
  end.

Definition cexec (tr : list Action) (s : System) : System :=
  fold_left (fun s a => cstep a s) tr s.



(** The actions of components that call [useRemoteHandler] once per
    render, and the states they reach. *)
Definition once (a : Action) : Prop :=
  match a with
  | CRender _ _ _ handlers => length handlers = 1%nat
  | _ => True
  end.

Inductive creachable_once : System -> Prop :=
| creachable_once_init : creachable_once sys_init
| creachable_once_step a s :
    creachable_once s -> once a -> creachable_once (cstep a s).

(** The subscription a component that calls [useRemoteHandler] once
    holds through its ref: the object in the ref, for the handler of
    the last run of its effect. *)
Definition subscription_of (comp : Component) : option (ObjId * Handler) :=
  match comp_ref comp, comp_effects comp with
  | Some obj, [r] => Some (obj, fst (effect_deps r))
  | _, _ => None
  end.

Definition subscriptions (m : gmap CompId Component) : list (ObjId * Handler) :=
  omap (fun kc => subscription_of (snd kc)) (map_to_list m).

(** The mounted components whose hook classifies the device as a TV. *)
Definition mounted_as_TV (m : gmap CompId Component) : list (CompId * Component) :=
  filter (fun kc => isTVDevice (comp_memos (snd kc)) = true) (map_to_list m).

(** The handler a notification reaches through a component: that of
    the last run of its first effect, if its hook classifies the device
    as a TV. *)
Definition handler_if_TV (comp : Component) : option Handler :=
  if isTVDevice (comp_memos comp)
  then (fun r => fst (effect_deps r)) <$> head (comp_effects comp)
  else None.

(** What holds of each component that calls [useRemoteHandler] once. *)
Definition comp_ok (comp : Component) : Prop :=
  exists r,
    comp_effects comp = [r] /\
    snd (effect_deps r) = isTVDevice (comp_memos comp) /\
    effect_cleanup r = snd (effect_deps r) /\
    if effect_cleanup r then is_Some (comp_ref comp) else comp_ref comp = None.

Definition once_inv (s : System) : Prop :=
  (forall c comp, components s !! c = Some comp -> comp_ok comp) /\
  sys_enabled s ≡ₚ subscriptions (components s) /\
  NoDup (fst <$> sys_enabled s) /\
  (forall x, x ∈ sys_enabled s -> (fst x < sys_next_id s)%nat).

(** The state of [TVDevice] as a system with the one component 0. *)
Definition lift (w : World) : System :=
  mkSystem (next_id w) (enabled w) (calls w)
    match mounted w, remoteEffect w with
    | Some m, Some r => {[ 0%nat := mkComponent m (tvEventHandlerRef w) [r] ]}
    | _, _ => ∅
    end.

Definition lift_action (a : TVDevice.Action) : Action :=
  match a with
  | Render host settings handler => CRender 0%nat host settings [handler]
  | Unmount => CUnmount 0%nat
  | Emit hwEvent => CEmit hwEvent
  end.

End Consumers.

(** ** Properties of the device detector and of the scale metrics *)

Section Detector.

Import JS TVDevice.

(** C4. With the override flag set, [detectTVDevice] returns true on
    every host: whatever the platform flag, the operating system and
    the window size are. *)
Theorem detectTVDevice_force_override :
  forall host : Host, detectTVDevice host true = true.
Proof. intros host. reflexivity. Qed.

(** C1. On an Android host that does not report [Platform.isTV], and
    with the override off, [detectTVDevice] answers true exactly when
    the window is wider than high, at least 1280 wide and 720 high,
    and its aspect ratio width/height lies between 1.7 and 2.4, both
    included; 1920 by 1080 is a TV and 1280 by 800 is not. *)
Theorem detectTVDevice_android_heuristic :
  (forall w h : number,
      detectTVDevice (android_window w h) false = true <->
      gt w h = true /\ ge w 1280 = true /\ ge h 720 = true /\
      ge (w / h) 1.7 = true /\ le (w / h) 2.4 = true) /\
  detectTVDevice (android_window 1920 1080) false = true /\
  detectTVDevice (android_window 1280 800) false = false /\
  (* the interval is closed at both ends *)
  detectTVDevice (android_window 1700 1000) false = true /\
  detectTVDevice (android_window 2400 1000) false = true /\
  detectTVDevice (android_window 1699 1000) false = false /\
  detectTVDevice (android_window 2401 1000) false = false.
Proof.
  split; [| repeat split; vm_compute; reflexivity].
  intros w h.
  unfold detectTVDevice, android_window, TV_MIN_WIDTH, TV_MIN_HEIGHT, gt, ge, le.
  cbn.
  destruct (PrimFloat.ltb h w), (PrimFloat.leb 1280 w), (PrimFloat.leb 720 h),
    (PrimFloat.leb 1.7 (w / h)), (PrimFloat.leb (w / h) 2.4);
    cbn; intuition congruence.
Qed.

(** C5. On every host the parameterless [isAndroidTV] gives the same
    answer as [detectTVDevice] called with the override off. *)
Theorem isAndroidTV_eq_detectTVDevice :
  forall host : Host, isAndroidTV host = detectTVDevice host false.
Proof.
  intros [[tv os] [w h]].
  unfold isAndroidTV, detectTVDevice, TV_MIN_WIDTH, TV_MIN_HEIGHT, gt, ge, le.
  cbn.
  destruct tv; [reflexivity |].
  destruct (String.eqb os "android"); [| reflexivity].
  destruct (PrimFloat.ltb h w), (PrimFloat.leb 1280 w), (PrimFloat.leb 720 h);
    reflexivity.
Qed.

(** C6. For every window width, each field of [calculateTVDimensions]
    is [round (base * (width / 1920))] for its entry of the base table,
    nothing else being applied to it (at width 96 the focus border
    rounds to 0); at width 1920 every field is its base value. *)
Theorem calculateTVDimensions_scaling :
  (forall host : Host,
      metrics (calculateTVDimensions host) =
      computeScaleMetrics (width (Dimensions_window host))) /\
  (forall h : number,
      metrics (calculateTVDimensions (android_window 1920 h)) = base_values) /\
  (forall h : number,
      PrimFloat.eqb (focusBorderWidth (calculateTVDimensions (android_window 96 h))) 0
      = true).
Proof.
  split; [| split].
  - intros host. reflexivity.
  - intros h. vm_compute. reflexivity.
  - intros h. vm_compute. reflexivity.
Qed.

End Detector.

(** ** Properties of the remote event normalizer *)

Section Normalizer.

Import TVDevice.

Lemma strict_eq_true (v : option Z) (n : Z) :
  strict_eq v n = true <-> v = Some n.
Proof.
  destruct v as [x |]; cbn; [| split; discriminate].
  rewrite Z.eqb_eq. split; congruence.
Qed.

Lemma mapKeyAction_up (code : option Z) :
  mapKeyAction code = key_up <-> code = Some 1.
Proof.
  unfold mapKeyAction.
  destruct (strict_eq code 0) eqn:E0.
  - apply strict_eq_true in E0. subst. split; discriminate.
  - destruct (strict_eq code 1) eqn:E1.
    + apply strict_eq_true in E1. tauto.
    + split; [discriminate |]. intros ->. discriminate.
Qed.

(** What the callback does with a notification that has a payload. *)
Lemma onHWEvent_payload (handler : Handler) (hw : HWEvent) :
  onHWEvent handler (Some hw) =
    if decide (hw_eventKeyAction hw = Some 1) then []
    else [(handler,
           mkTVRemoteEvent (hw_eventType hw)
             (mapKeyAction (hw_eventKeyAction hw)) (hw_tag hw))].
Proof.
  unfold onHWEvent; cbn.
  destruct (decide (hw_eventKeyAction hw = Some 1)) as [E | E].
  - rewrite E. reflexivity.
  - destruct (mapKeyAction (hw_eventKeyAction hw)) eqn:M;
      [apply mapKeyAction_up in M; contradiction | reflexivity | reflexivity].
Qed.

(** With one live subscription, a notification adds to the log what
    that subscription's callback calls. *)
Lemma step_Emit_single (w : World) (obj : ObjId) (handler : Handler)
    (hwEvent : option HWEvent) :
  enabled w = [(obj, handler)] ->
  calls (step (Emit hwEvent) w) = calls w ++ onHWEvent handler hwEvent.
Proof.
  intros Hw. unfold step. cbn [calls]. rewrite Hw.
  cbn [flat_map snd]. rewrite app_nil_r. reflexivity.
Qed.

(** C3. The key-action code of a notification is translated by a
    three-way split: 0 gives Pressed (['down']), 1 gives Released
    (['up']), every other integer gives LongPressed (['long-press']). *)
Theorem mapKeyAction_three_way :
  phase_of (mapKeyAction (Some 0)) = Pressed /\
  phase_of (mapKeyAction (Some 1)) = Released /\
  (forall code : Z,
      phase_of (mapKeyAction (Some code)) =
        if decide (code = 0) then Pressed
        else if decide (code = 1) then Released
        else LongPressed).
Proof.
  split; [reflexivity | split; [reflexivity |]].
  intros code. unfold mapKeyAction; cbn.
  destruct (decide (code = 0)) as [-> | H0]; [reflexivity |].
  destruct (decide (code = 1)) as [-> | H1]; [reflexivity |].
  destruct (Z.eqb_spec code 0); [contradiction |].
  destruct (Z.eqb_spec code 1); [contradiction |]. reflexivity.
Qed.

(** C2. A notification delivered to the live subscription calls the
    registered handler exactly once if it has a payload and its
    key-action code is not 1; without a payload, or with code 1, it
    calls nothing.  No other handler is ever called. *)
Theorem onHWEvent_forwarding :
  forall (handler : Handler) (hwEvent : option HWEvent),
    (length (onHWEvent handler hwEvent) = 1%nat <->
     exists hw, hwEvent = Some hw /\ hw_eventKeyAction hw <> Some 1) /\
    ((hwEvent = None \/ exists hw, hwEvent = Some hw /\ hw_eventKeyAction hw = Some 1) <->
     onHWEvent handler hwEvent = []) /\
    (forall c, In c (onHWEvent handler hwEvent) -> fst c = handler) /\
    (forall (w : World) (obj : ObjId),
        enabled w = [(obj, handler)] ->
        calls (step (Emit hwEvent) w) = calls w ++ onHWEvent handler hwEvent).
Proof.
  intros handler hwEvent.
  assert (Hcases :
    (exists hw, hwEvent = Some hw /\ hw_eventKeyAction hw <> Some 1 /\
                exists ev, onHWEvent handler hwEvent = [(handler, ev)]) \/
    ((hwEvent = None \/ exists hw, hwEvent = Some hw /\ hw_eventKeyAction hw = Some 1) /\
     onHWEvent handler hwEvent = [])).
  { destruct hwEvent as [hw |]; [| right; split; [left |]; reflexivity].
    rewrite onHWEvent_payload.
    destruct (decide (hw_eventKeyAction hw = Some 1)) as [E | E].
    - right. split; [right; exists hw; split |]; done.
    - left. exists hw. repeat split; [done |]. eexists; reflexivity. }
  split; [| split; [| split]].
  - destruct Hcases as [(hw & -> & Hne & ev & ->) | [Hdrop ->]].
    + split; [intros _; exists hw; split; done | reflexivity].
    + split; [discriminate |].
      intros (hw & -> & Hne).
      destruct Hdrop as [? | (hw' & [= <-] & ?)]; [discriminate | contradiction].
  - destruct Hcases as [(hw & -> & Hne & ev & ->) | [Hdrop ->]].
    + split; [| discriminate].
      intros [? | (hw' & [= <-] & ?)]; [discriminate | contradiction].
    + split; done.
  - destruct Hcases as [(hw & -> & Hne & ev & ->) | [Hdrop ->]].
    + intros c [<- | []]. reflexivity.
    + intros c [].
  - intros w obj Hw. apply (step_Emit_single _ _ _ _ Hw).
Qed.

(** C7, as the code behaves: a notification whose [eventType] is not
    one of the ten remote keys is treated like any other.  It is
    forwarded exactly when its key-action code is not 1, and the
    forwarded event carries the [eventType] string unchanged, so it is
    not turned into a known key. *)
Theorem onHWEvent_unknown_eventType :
  forall (handler : Handler) (hw : HWEvent),
    ~ In (hw_eventType hw) TV_REMOTE_KEYS ->
    (hw_eventKeyAction hw <> Some 1 ->
     onHWEvent handler (Some hw) =
       [(handler,
         mkTVRemoteEvent (hw_eventType hw)
           (mapKeyAction (hw_eventKeyAction hw)) (hw_tag hw))]) /\
    (hw_eventKeyAction hw = Some 1 -> onHWEvent handler (Some hw) = []) /\
    (forall c, In c (onHWEvent handler (Some hw)) ->
               eventType (snd c) = hw_eventType hw /\
               ~ In (eventType (snd c)) TV_REMOTE_KEYS).
Proof.
  intros handler hw Hunknown. rewrite onHWEvent_payload.
  destruct (decide (hw_eventKeyAction hw = Some 1)) as [E | E].
  - split; [contradiction | split; [reflexivity | intros c []]].
  - split; [reflexivity | split; [contradiction |]].
    intros c [<- | []]. split; [reflexivity | exact Hunknown].
Qed.

Lemma focus_not_a_remote_key : ~ In "focus" TV_REMOTE_KEYS.
Proof. cbn. intuition discriminate. Qed.

Lemma onHWEvent_unknown_eventType_witness :
  ~ In "focus" TV_REMOTE_KEYS /\
  onHWEvent 7%nat (Some (mkHWEvent "focus" (Some (-1)) None)) =
    [(7%nat, mkTVRemoteEvent "focus" key_long_press None)].
Proof.
  split; [exact focus_not_a_remote_key |].
  apply (onHWEvent_unknown_eventType 7%nat (mkHWEvent "focus" (Some (-1)) None)
           focus_not_a_remote_key).
  cbn. discriminate.
Defined.

(** C7, as stated, fails: the notification of type ["focus"] with
    key-action code -1 is not one of the ten remote keys, and the
    handler is called with it. *)
Lemma onHWEvent_forwards_unknown_eventType :
  ~ In "focus" TV_REMOTE_KEYS /\
  onHWEvent 7%nat (Some (mkHWEvent "focus" (Some (-1)) None)) =
    [(7%nat, mkTVRemoteEvent "focus" key_long_press None)] /\
  calls (exec [Render (android_window 1920 1080) (mkSettings None) 7%nat;
               Emit (Some (mkHWEvent "focus" (Some (-1)) None))] init) =
    [(7%nat, mkTVRemoteEvent "focus" key_long_press None)].
Proof.
  split; [exact focus_not_a_remote_key | split; vm_compute; reflexivity].
Qed.

End Normalizer.

(** ** The registration lifecycle *)

Section Lifecycle.

Import TVDevice.

Lemma disable_only (obj : ObjId) (handler : Handler) :
  disable obj [(obj, handler)] = [].
Proof.
  unfold disable. rewrite filter_cons. cbn.
  destruct (decide (obj <> obj)) as [Hne | _]; [contradiction | reflexivity].
Qed.

Lemma lifecycle_inv_init : lifecycle_inv init.
Proof. repeat split. Qed.

(** Running the effect on a state without subscription. *)
Lemma remoteEffect_run_inv (handler : Handler) (m : Memos) n cs r :
  lifecycle_inv
    (remoteEffect_run (handler, isTVDevice m)
       (mkWorld n [] cs (Some m) None r)).
Proof.
  unfold remoteEffect_run, remoteEffect_body, lifecycle_inv; cbn.
  destruct (isTVDevice m) eqn:E; cbn.
  - split; [exists m; split; [reflexivity | exact E] |].
    split; [reflexivity |]. exists n. repeat split. lia.
  - split; [exists m; split; [reflexivity | exact E] |]. repeat split.
Qed.

(** After the cleanup no subscription is live. *)
Lemma remoteEffect_cleanup_enabled (w : World) :
  lifecycle_inv w -> enabled (remoteEffect_cleanup w) = [].
Proof.
  unfold lifecycle_inv, remoteEffect_cleanup.
  destruct (remoteEffect w) as [[deps c] |]; cbn.
  - intros [_ H]. destruct c.
    + destruct H as (_ & obj & -> & -> & _). cbn. apply disable_only.
    + destruct H as (_ & -> & ->). reflexivity.
  - intros (_ & -> & ->). reflexivity.
Qed.

Lemma lifecycle_inv_step (a : Action) (w : World) :
  lifecycle_inv w -> lifecycle_inv (step a w).
Proof.
  intros Hinv. destruct a as [host settings handler | | hwEvent].
  - (* Render *)
    unfold step, useEffect_commit. cbn [remoteEffect].
    set (m := useTVDevice (mounted w) host settings).
    pose proof (remoteEffect_cleanup_enabled w Hinv) as Hclean.
    unfold lifecycle_inv in Hinv.
    destruct (remoteEffect w) as [[deps c] |] eqn:Er.
    + cbn [effect_deps effect_cleanup] in *.
      destruct (decide (deps = (handler, isTVDevice m))) as [-> | Hne].
      * unfold lifecycle_inv. cbn.
        destruct Hinv as [_ H]. split; [exists m; split; reflexivity | exact H].
      * destruct Hinv as [_ H]. destruct c.
        -- destruct H as (_ & obj & Href & Hen & _).
           unfold remoteEffect_cleanup in *. cbn. rewrite Href in *. cbn in *.
           fold (disable obj (enabled w)). rewrite Hclean.
           apply remoteEffect_run_inv.
        -- destruct H as (_ & Href & Hen). rewrite Href, Hen.
           apply remoteEffect_run_inv.
    + destruct Hinv as (_ & Href & Hen). rewrite Href, Hen.
      apply remoteEffect_run_inv.
  - (* Unmount *)
    unfold step. destruct (remoteEffect w) as [[deps c] |] eqn:Er;
      [| exact Hinv].
    pose proof (remoteEffect_cleanup_enabled w Hinv) as Hclean.
    unfold lifecycle_inv in *. rewrite Er in Hinv. cbn in *.
    destruct Hinv as [_ H]. destruct c.
    + rewrite Hclean. repeat split.
    + destruct H as (_ & _ & ->). repeat split.
  - (* Emit *)
    exact Hinv.
Qed.

Lemma reachable_inv (w : World) : reachable w -> lifecycle_inv w.
Proof.
  induction 1 as [| a w _ IH]; [exact lifecycle_inv_init |].
  apply lifecycle_inv_step, IH.
Qed.

Lemma lifecycle_inv_at_most_one (w : World) :
  lifecycle_inv w -> (length (enabled w) <= 1)%nat.
Proof.
  unfold lifecycle_inv. destruct (remoteEffect w) as [[deps c] |].
  - intros [_ H]. destruct c.
    + destruct H as (_ & obj & _ & -> & _). cbn. lia.
    + destruct H as (_ & _ & ->). cbn. lia.
  - intros (_ & _ & ->). cbn. lia.
Qed.

(** Notifications do not change the subscriptions, and without
    subscription they call no handler. *)
Lemma exec_Emit_unsubscribed (ns : list (option HWEvent)) (w : World) :
  enabled w = [] ->
  enabled (exec (map Emit ns) w) = [] /\
  calls (exec (map Emit ns) w) = calls w.
Proof.
  revert w. induction ns as [| n ns IH]; intros w Hw; [split; done |].
  cbn [map exec fold_left].
  destruct (IH (step (Emit n) w)) as [IH1 IH2]; [exact Hw |].
  unfold exec in *. split; [exact IH1 |].
  rewrite IH2. cbn. rewrite Hw. cbn. apply app_nil_r.
Qed.

(** Replacing the handler of a live subscription: the old object is
    disabled and, if the device still counts as a TV, a new object is
    enabled for the new handler. *)
Lemma step_Render_replace (w : World) host settings handler obj old :
  lifecycle_inv w ->
  enabled w = [(obj, old)] -> old <> handler ->
  obj <> next_id w /\
  enabled (step (Render host settings handler) w) =
    if isTVDevice (useTVDevice (mounted w) host settings)
    then [(next_id w, handler)] else [].
Proof.
  intros Hinv Hen Hne.
  pose proof (remoteEffect_cleanup_enabled w Hinv) as Hclean.
  unfold lifecycle_inv in Hinv. unfold step, useEffect_commit. cbn [remoteEffect].
  set (m := useTVDevice (mounted w) host settings).
  destruct (remoteEffect w) as [[deps c] |] eqn:Er.
  - cbn [effect_deps effect_cleanup] in *. destruct Hinv as [_ H].
    destruct c.
    + destruct H as (_ & obj0 & Href & Hen0 & Hlt).
      rewrite Hen in Hen0. injection Hen0 as <- Hold.
      split; [lia |].
      destruct (decide (deps = (handler, isTVDevice m))) as [-> | _];
        [cbn in Hold; contradiction |].
      unfold remoteEffect_cleanup in *. cbn. rewrite Href in *. cbn in *.
      fold (disable obj (enabled w)). rewrite Hclean.
      unfold remoteEffect_run, remoteEffect_body. cbn.
      destruct (isTVDevice m); reflexivity.
    + destruct H as (_ & _ & Hnil). rewrite Hnil in Hen. discriminate.
  - destruct Hinv as (_ & _ & Hnil). rewrite Hnil in Hen. discriminate.
Qed.

Lemma step_Unmount_enabled (w : World) :
  lifecycle_inv w -> enabled (step Unmount w) = [].
Proof.
  intros Hinv. pose proof (remoteEffect_cleanup_enabled w Hinv) as Hclean.
  unfold lifecycle_inv in Hinv. unfold step.
  destruct (remoteEffect w) as [[deps c] |].
  - cbn in *. destruct c; [exact Hclean |]. apply Hinv.
  - apply Hinv.
Qed.

(** For a single registration: in every state its lifecycle can reach
    (renders with any handler, host and settings, unmounts, hardware
    notifications) at most one subscription is live.  The cleanup
    leaves none, and replacing the handler of a live subscription
    ends with the old object disabled and at most the one new object
    enabled, for the new handler.  Unmounting leaves no subscription,
    and notifications emitted afterwards call no handler. *)
Theorem remote_subscription_lifecycle :
  forall w : World,
    reachable w ->
    (length (enabled w) <= 1)%nat /\
    enabled (remoteEffect_cleanup w) = [] /\
    (forall host settings handler obj old,
        enabled w = [(obj, old)] -> old <> handler ->
        obj <> next_id w /\
        enabled (step (Render host settings handler) w) =
          if isTVDevice (useTVDevice (mounted w) host settings)
          then [(next_id w, handler)] else []) /\
    enabled (step Unmount w) = [] /\
    (forall ns : list (option HWEvent),
        calls (exec (map Emit ns) (step Unmount w)) = calls (step Unmount w)).
Proof.
  intros w Hreach. apply reachable_inv in Hreach.
  split; [apply lifecycle_inv_at_most_one, Hreach |].
  split; [apply remoteEffect_cleanup_enabled, Hreach |].
  split; [intros host settings handler obj old Hen Hne;
          exact (step_Render_replace w host settings handler obj old Hreach Hen Hne) |].
  split; [apply step_Unmount_enabled, Hreach |].
  intros ns. apply exec_Emit_unsubscribed, step_Unmount_enabled, Hreach.
Qed.

Lemma remote_subscription_lifecycle_witness :
  let w := step (Render (android_window 1920 1080) (mkSettings None) 7%nat) init in
  live_handlers w = [7%nat] /\
  (length (enabled w) <= 1)%nat /\
  live_handlers
    (step (Render (android_window 1920 1080) (mkSettings None) 8%nat) w) = [8%nat] /\
  enabled (step Unmount w) = [].
Proof.
  intros w.
  destruct (remote_subscription_lifecycle w (reachable_step _ _ reachable_init))
    as (Hone & _ & Hreplace & Hunmount & _).
  split; [reflexivity |]. split; [exact Hone |]. split; [| exact Hunmount].
  destruct (Hreplace (android_window 1920 1080) (mkSettings None) 8%nat 0%nat 7%nat)
    as [_ Hen]; [reflexivity | discriminate |].
  unfold live_handlers. rewrite Hen. reflexivity.
Defined.

End Lifecycle.

(** ** Memoization in [useTVDevice] *)

Section Memoization.

Import JS TVDevice.

Lemma renders_snoc (rs : list (Host * Settings)) (r : Host * Settings) :
  renders (rs ++ [r]) = Some (useTVDevice (renders rs) (fst r) (snd r)).
Proof. unfold renders. rewrite fold_left_app. reflexivity. Qed.

(** After any number of renders, the dimensions are those of the
    first render and the stored dependency of [isTVDevice] is the
    [forceTVMode] of the last one. *)
Lemma renders_cells (r0 : Host * Settings) (rs : list (Host * Settings)) :
  exists m : Memos,
    renders (r0 :: rs) = Some m /\
    tvDimensions m = calculateTVDimensions (fst r0) /\
    memo_deps (isTVDevice_cell m) = forceTVMode (snd (List.last rs r0)).
Proof.
  induction rs as [| r rs IH] using rev_ind.
  - eexists. split; [reflexivity |]. split; reflexivity.
  - destruct IH as (m & Hm & Hdims & _).
    change (r0 :: rs ++ [r]) with ((r0 :: rs) ++ [r]).
    rewrite renders_snoc, Hm. eexists. split; [reflexivity |].
    rewrite last_last. split.
    + unfold tvDimensions, useTVDevice, useMemo in *. cbn.
      destruct (decide (memo_deps (tvDimensions_cell m) = tt)) as [_ | Hne];
        [exact Hdims |].
      destruct (memo_deps (tvDimensions_cell m)). contradiction.
    + unfold useTVDevice, useMemo. cbn.
      destruct (decide (memo_deps (isTVDevice_cell m) = forceTVMode (snd r)))
        as [E | _]; [exact E | reflexivity].
Qed.

(** C9, as the code behaves.  The classification is computed on the
    first render, from the host and the override of that render, and
    again on a render whose override differs from that of the render
    before, from the host of that render; on any other render it keeps
    its value.  The metrics are computed on the first render only, from
    the window width of that render. *)
Theorem useTVDevice_recomputation :
  forall (r0 : Host * Settings) (rs : list (Host * Settings)),
    isTVDevice (useTVDevice None (fst r0) (snd r0)) =
      detectTVDevice (fst r0) (default false (forceTVMode (snd r0))) /\
    exists m : Memos,
      renders (r0 :: rs) = Some m /\
      tvDimensions m = calculateTVDimensions (fst r0) /\
      forall (host : Host) (settings : Settings),
        isTVDevice (useTVDevice (Some m) host settings) =
          if decide (forceTVMode (snd (List.last rs r0)) = forceTVMode settings)
          then isTVDevice m
          else detectTVDevice host (default false (forceTVMode settings)).
Proof.
  intros r0 rs. split; [reflexivity |].
  destruct (renders_cells r0 rs) as (m & Hm & Hdims & Hdeps).
  exists m. split; [exact Hm |]. split; [exact Hdims |].
  intros host settings. unfold isTVDevice, useTVDevice, useMemo. cbn.
  rewrite Hdeps.
  destruct (decide (forceTVMode (snd (List.last rs r0)) = forceTVMode settings));
    reflexivity.
Qed.

(** C9, as stated, fails.  A component rendered with a 1920 by 1080
    window and rendered again, settings unchanged, after the window
    became 1080 by 1920, still exposes the classification and the
    metrics of the first window: [isTVDevice] is true where
    [detectTVDevice] now answers false, and the poster width is 200
    where [calculateTVDimensions] now gives 113. *)
Lemma useTVDevice_stale_after_resize :
  exists m : Memos,
    renders [(android_window 1920 1080, mkSettings (Some false));
             (android_window 1080 1920, mkSettings (Some false))] = Some m /\
    isTVDevice m = true /\
    detectTVDevice (android_window 1080 1920) false = false /\
    metrics (tvDimensions m) = [200; 300; 32; 28; 20; 16; 8; 16; 32; 4]%float /\
    metrics (calculateTVDimensions (android_window 1080 1920)) =
      [113; 169; 18; 16; 11; 9; 5; 9; 18; 2]%float /\
    PrimFloat.eqb (posterWidth (tvDimensions m))
      (posterWidth (calculateTVDimensions (android_window 1080 1920))) = false.
Proof.
  eexists. split; [reflexivity |]. repeat split; vm_compute; reflexivity.
Qed.

End Memoization.

(** ** The tab layout *)

Section TabLayout.

Import TVTabLayout.

Lemma SCREEN_COMPONENTS_registered (route : string) :
  ~ In route registered -> SCREEN_COMPONENTS !! route = None.
Proof.
  intros Hnot. unfold SCREEN_COMPONENTS, registered in *. cbn in Hnot.
  rewrite !lookup_insert_ne by (intros <-; tauto).
  apply lookup_empty.
Qed.

(** X10. The fallback as far as it reaches: a route that is neither a
    registered key nor a property name of [Object.prototype] shows the
    Home screen. *)
Lemma CurrentScreen_fallback (route : string) :
  ~ In route registered -> ~ In route Object_prototype ->
  CurrentScreen route = VComponent HomeScreen.
Proof.
  intros Hreg Hproto. unfold CurrentScreen, get.
  rewrite (SCREEN_COMPONENTS_registered route Hreg).
  rewrite bool_decide_eq_false_2; [reflexivity |].
  rewrite list_elem_of_In. exact Hproto.
Qed.

(** Routes chosen on the navigation rail are registered keys, and a
    registered key shows one of the five screens: only [initialRoute]
    can bring in another string. *)
Lemma getNavigationItems_registered (enableDownloads : bool) (it : TVNavigationItem) :
  In it (getNavigationItems enableDownloads) -> In (key it) registered.
Proof.
  destruct enableDownloads; cbn; intros H;
    repeat (destruct H as [<- | H]; [cbn; tauto |]); destruct H.
Qed.

Lemma CurrentScreen_registered (route : string) :
  In route registered -> exists c : Component, CurrentScreen route = VComponent c.
Proof.
  cbn. intros H.
  repeat (destruct H as [<- | H]; [eexists; vm_compute; reflexivity |]).
  destruct H.
Qed.

(** C10 at the route ["constructor"]: it is not a registered key, yet
    the lookup finds the member inherited from [Object.prototype], the
    fallback is not taken, and what is rendered is not the Home
    screen. *)
Theorem CurrentScreen_inherited_property :
  ~ In "constructor" registered /\
  render (mount (Some "constructor")) = VObjectPrototypeMember "constructor" /\
  render (mount (Some "constructor")) <> VComponent HomeScreen.
Proof.
  split; [cbn; intuition discriminate |].
  split; [vm_compute; reflexivity |].
  vm_compute. discriminate.
Qed.

End TabLayout.

(** ** Order facts on binary64 numbers *)

Section NumberOrder.

Import JS.

Lemma SFcompare_antisym (x y : spec_float) :
  SFcompare y x = option_map CompOpp (SFcompare x y).
Proof.
  destruct x as [sx | sx | | sx mx ex], y as [sy | sy | | sy my ey]; cbn;
    try reflexivity;
    try (destruct sx; reflexivity); try (destruct sy; reflexivity);
    try (destruct sx, sy; reflexivity).
  destruct sx, sy; cbn; try reflexivity;
    rewrite (Z.compare_antisym ex ey); destruct (ex ?= ey)%Z; cbn;
    try reflexivity.
  - rewrite (Pos.compare_cont_antisym mx my Eq). reflexivity.
  - rewrite (Pos.compare_cont_antisym mx my Eq). reflexivity.
Qed.

Lemma SFcompare_refl (x : spec_float) :
  SFcompare x x = None \/ SFcompare x x = Some Eq.
Proof.
  destruct x as [s | s | | s m e]; cbn; [right | right | left | right];
    try reflexivity.
  - destruct s; reflexivity.
  - destruct s; rewrite Z.compare_refl, Pos.compare_cont_refl; reflexivity.
Qed.

Lemma ltb_asym (x y : number) :
  PrimFloat.ltb x y = true -> PrimFloat.ltb y x = false.
Proof.
  rewrite !FloatAxioms.ltb_spec. unfold SFltb.
  rewrite (SFcompare_antisym (Prim2SF x) (Prim2SF y)).
  destruct (SFcompare (Prim2SF x) (Prim2SF y)) as [[] |]; cbn; congruence.
Qed.

Lemma ltb_irrefl (x : number) : PrimFloat.ltb x x = false.
Proof.
  rewrite FloatAxioms.ltb_spec. unfold SFltb.
  destruct (SFcompare_refl (Prim2SF x)) as [-> | ->]; reflexivity.
Qed.

Lemma leb_not_ltb (x y : number) :
  PrimFloat.leb x y = true -> PrimFloat.ltb y x = false.
Proof.
  rewrite FloatAxioms.leb_spec, FloatAxioms.ltb_spec. unfold SFleb, SFltb.
  rewrite (SFcompare_antisym (Prim2SF x) (Prim2SF y)).
  destruct (SFcompare (Prim2SF x) (Prim2SF y)) as [[] |]; cbn; congruence.
Qed.

(** A NaN compares as neither smaller nor larger than anything. *)
Lemma isNaN_Prim2SF (x : number) : isNaN x = true -> Prim2SF x = S754_nan.
Proof.
  unfold isNaN. rewrite FloatAxioms.eqb_spec. unfold SFeqb.
  destruct (Prim2SF x) as [s | s | | s m e]; cbn; try reflexivity.
  - discriminate.
  - destruct s; discriminate.
  - destruct s; rewrite Z.compare_refl, Pos.compare_cont_refl; discriminate.
Qed.

Lemma isNaN_ltb_l (x y : number) : isNaN x = true -> PrimFloat.ltb x y = false.
Proof.
  intros H. rewrite FloatAxioms.ltb_spec, (isNaN_Prim2SF x H). reflexivity.
Qed.

Lemma isNaN_ltb_r (x y : number) : isNaN y = true -> PrimFloat.ltb x y = false.
Proof.
  intros H. rewrite FloatAxioms.ltb_spec, (isNaN_Prim2SF y H). unfold SFltb.
  destruct (Prim2SF x); reflexivity.
Qed.

Lemma isNaN_leb_r (x y : number) : isNaN y = true -> PrimFloat.leb x y = false.
Proof.
  intros H. rewrite FloatAxioms.leb_spec, (isNaN_Prim2SF y H). unfold SFleb.
  destruct (Prim2SF x); reflexivity.
Qed.

(** [Math.max] never returns a number below one of its arguments. *)
Lemma Math_max_not_below (a b : number) :
  PrimFloat.ltb (Math_max a b) a = false /\
  PrimFloat.ltb (Math_max a b) b = false.
Proof.
  unfold Math_max.
  destruct (isNaN a || isNaN b) eqn:Hnan.
  - split; apply isNaN_ltb_l; reflexivity.
  - destruct (PrimFloat.ltb a b) eqn:Hab.
    + split; [apply ltb_asym, Hab | apply ltb_irrefl].
    + destruct (PrimFloat.ltb b a) eqn:Hba.
      * split; [apply ltb_irrefl | exact Hab].
      * destruct (is_neg_zero a); split;
          first [apply ltb_irrefl | exact Hab | exact Hba].
Qed.

End NumberOrder.

(** ** Further properties of the detectors and of the style table *)

Section DetectorEdges.

Import JS TVDevice TVStyles.

(** X1. Without the override and without [Platform.isTV], a host is not a
    TV as soon as its OS is not exactly ["android"], or its window is
    not wider than high, or a window dimension is NaN: both detectors
    answer false. *)
Theorem detectors_reject (os : string) (w h : number) :
  os <> "android" \/ le w h = true \/ isNaN w = true \/ isNaN h = true ->
  detectTVDevice (mkHost (mkPlatform false os) (mkWindow w h)) false = false /\
  isAndroidTV (mkHost (mkPlatform false os) (mkWindow w h)) = false.
Proof.
  intros H. unfold detectTVDevice, isAndroidTV, gt, ge, le in *. cbn.
  destruct (String.eqb_spec os "android") as [-> | Hos]; [| split; reflexivity].
  assert (Hgt : PrimFloat.ltb h w = false).
  { destruct H as [H | [H | [H | H]]].
    - contradiction.
    - apply leb_not_ltb, H.
    - apply isNaN_ltb_r, H.
    - apply isNaN_ltb_l, H. }
  rewrite Hgt. cbn. rewrite andb_false_r. split; reflexivity.
Qed.

Lemma detectors_reject_witness :
  detectTVDevice (mkHost (mkPlatform false "android") (mkWindow 1080 1920)) false = false /\
  isAndroidTV (mkHost (mkPlatform false "android") (mkWindow 1080 1920)) = false.
Proof.
  apply (detectors_reject "android" 1080 1920).
  right; left. vm_compute. reflexivity.
Defined.

(** X8. For every window the focus border of [TV_STYLES] is never below 3
    and its minimum touch target never below 48; at width 960, where
    the scaled values are 2 and 24, they are 3 and 48. *)
Theorem TV_STYLES_floors :
  (forall host : Host,
      PrimFloat.ltb (focus_borderWidth (focus (TV_STYLES host))) 3 = false /\
      PrimFloat.ltb (minTouchTarget (TV_STYLES host)) 48 = false) /\
  (forall h : number,
      PrimFloat.eqb (focus_borderWidth (focus (TV_STYLES (android_window 960 h)))) 3
      = true /\
      PrimFloat.eqb (minTouchTarget (TV_STYLES (android_window 960 h))) 48 = true).
Proof.
  split.
  - intros host. unfold TV_STYLES; cbn [focus focus_borderWidth minTouchTarget].
    split; apply Math_max_not_below.
  - intros h. split; vm_compute; reflexivity.
Qed.

(** X9. Loaded under the same window, [TV_STYLES] and the hook's
    [tvDimensions] agree on every entry they share (poster size, title,
    body and caption font, the spacings 8, 16 and 32), and the style
    table's focus border is the hook's raised to at least 3. *)
Theorem TV_STYLES_agrees_with_tvDimensions :
  forall host : Host,
    shared_metrics (TV_STYLES host) =
      shared_dimensions (calculateTVDimensions host) /\
    focus_borderWidth (focus (TV_STYLES host)) =
      Math_max 3 (focusBorderWidth (calculateTVDimensions host)).
Proof. intros host. split; reflexivity. Qed.

End DetectorEdges.

(** ** Further properties of the registration lifecycle *)

Section LifecycleMore.

Import TVDevice.

(** X5. A render that passes the handler already subscribed, on a device
    still classified as a TV, changes nothing: the same
    [TVEventHandler] object stays enabled and none is created. *)
Theorem same_handler_keeps_subscription (w : World) host settings obj handler :
  reachable w ->
  enabled w = [(obj, handler)] ->
  isTVDevice (useTVDevice (mounted w) host settings) = true ->
  enabled (step (Render host settings handler) w) = [(obj, handler)] /\
  next_id (step (Render host settings handler) w) = next_id w.
Proof.
  intros Hreach Hen HTV. apply reachable_inv in Hreach.
  unfold lifecycle_inv in Hreach. unfold step, useEffect_commit. cbn [remoteEffect].
  rewrite HTV.
  destruct (remoteEffect w) as [[[h b] c] |]; cbn in Hreach.
  - destruct Hreach as [_ H]. destruct c.
    + destruct H as (-> & obj0 & _ & Hen0 & _).
      rewrite Hen in Hen0. injection Hen0 as <- <-.
      cbn [effect_deps]. rewrite decide_True by reflexivity.
      split; [exact Hen | reflexivity].
    + destruct H as (_ & _ & Hnil). rewrite Hnil in Hen. discriminate.
  - destruct Hreach as (_ & _ & Hnil). rewrite Hnil in Hen. discriminate.
Qed.

Lemma same_handler_keeps_subscription_witness :
  let w := step (Render (android_window 1920 1080) (mkSettings None) 7%nat) init in
  enabled (step (Render (android_window 1080 1920) (mkSettings None) 7%nat) w)
  = [(0%nat, 7%nat)].
Proof.
  intros w.
  apply (same_handler_keeps_subscription w (android_window 1080 1920) (mkSettings None)
           0%nat 7%nat (reachable_step _ _ reachable_init));
    reflexivity.
Defined.

End LifecycleMore.

(** ** What the handlers are called with, over whole traces *)

Section Traces.

Import TVDevice.

Lemma exec_snoc (tr : list Action) (a : Action) (w : World) :
  exec (tr ++ [a]) w = step a (exec tr w).
Proof. unfold exec. rewrite fold_left_app. reflexivity. Qed.

Lemma In_disable (obj : ObjId) (subs : list (ObjId * Handler)) s :
  In s (disable obj subs) -> In s subs.
Proof.
  unfold disable. rewrite <- !list_elem_of_In, list_elem_of_filter. tauto.
Qed.

Lemma In_remoteEffect_cleanup (w : World) s :
  In s (enabled (remoteEffect_cleanup w)) -> In s (enabled w).
Proof.
  unfold remoteEffect_cleanup. destruct (tvEventHandlerRef w); cbn; [| tauto].
  apply In_disable.
Qed.

Lemma In_remoteEffect_run (deps : Handler * bool) (w : World) s :
  In s (enabled (remoteEffect_run deps w)) -> In s (enabled w) \/ snd s = fst deps.
Proof.
  unfold remoteEffect_run, remoteEffect_body. destruct (snd deps); cbn; [| tauto].
  rewrite in_app_iff. cbn. intros [H | [<- | []]]; [left; exact H | right; reflexivity].
Qed.

(** A render subscribes no handler but its own. *)
Lemma In_step_Render (w : World) host settings handler s :
  In s (enabled (step (Render host settings handler) w)) ->
  In s (enabled w) \/ snd s = handler.
Proof.
  unfold step, useEffect_commit. cbn [remoteEffect].
  set (m := useTVDevice (mounted w) host settings).
  destruct (remoteEffect w) as [[deps c] |]; cbn [effect_deps effect_cleanup].
  - destruct (decide (deps = (handler, isTVDevice m))); [cbn; tauto |].
    intros H. apply In_remoteEffect_run in H. cbn [fst] in H.
    destruct H as [H | H]; [left | right; exact H].
    destruct c; [apply In_remoteEffect_cleanup in H |]; exact H.
  - intros H. apply In_remoteEffect_run in H. exact H.
Qed.

Lemma In_step_Unmount (w : World) s :
  In s (enabled (step Unmount w)) -> In s (enabled w).
Proof.
  unfold step. destruct (remoteEffect w) as [[deps c] |]; [| tauto].
  cbn. destruct c; [apply In_remoteEffect_cleanup | tauto].
Qed.

Lemma calls_step_Render (w : World) host settings handler :
  calls (step (Render host settings handler) w) = calls w.
Proof.
  unfold step, useEffect_commit. cbn [remoteEffect].
  set (m := useTVDevice (mounted w) host settings).
  assert (Hrun : forall deps w0, calls (remoteEffect_run deps w0) = calls w0).
  { intros deps w0. unfold remoteEffect_run, remoteEffect_body.
    destruct (snd deps); reflexivity. }
  assert (Hclean : forall w0, calls (remoteEffect_cleanup w0) = calls w0).
  { intros w0. unfold remoteEffect_cleanup.
    destruct (tvEventHandlerRef w0); reflexivity. }
  destruct (remoteEffect w) as [[deps c] |]; cbn [effect_deps effect_cleanup].
  - destruct (decide _); [reflexivity |]. rewrite Hrun.
    destruct c; [rewrite Hclean |]; reflexivity.
  - rewrite Hrun. reflexivity.
Qed.

Lemma calls_step_Unmount (w : World) : calls (step Unmount w) = calls w.
Proof.
  unfold step. destruct (remoteEffect w) as [[deps c] |]; [| reflexivity].
  cbn. destruct c; [| reflexivity].
  unfold remoteEffect_cleanup. destruct (tvEventHandlerRef w); reflexivity.
Qed.

(** Every live subscription is for a handler some render passed. *)
Lemma enabled_handlers_rendered (tr : list Action) s :
  In s (enabled (exec tr init)) ->
  exists host settings, In (Render host settings (snd s)) tr.
Proof.
  revert s. induction tr as [| a tr IH] using rev_ind; intros s; [intros [] |].
  rewrite exec_snoc. intros H.
  assert (Hold : In s (enabled (exec tr init)) ->
                 exists host settings, In (Render host settings (snd s)) (tr ++ [a])).
  { intros H0. destruct (IH s H0) as (host & settings & Hin).
    exists host, settings. apply in_or_app. left. exact Hin. }
  destruct a as [host settings handler | | hwEvent].
  - apply In_step_Render in H. destruct H as [H | <-]; [exact (Hold H) |].
    exists host, settings. apply in_or_app. right. left. reflexivity.
  - apply In_step_Unmount in H. exact (Hold H).
  - exact (Hold H).
Qed.

(** X7. Whatever the renders, unmounts and notifications were, every
    handler call on record went to a handler that some render passed to
    [useRemoteHandler], and its argument is the translation of a
    notification that was emitted with a key-action code other than 1:
    same [eventType], same [tag], and never the action ['up']. *)
Theorem calls_come_from_notifications (tr : list Action) (c : Call) :
  In c (calls (exec tr init)) ->
  (exists host settings, In (Render host settings (fst c)) tr) /\
  (exists hw : HWEvent,
      In (Emit (Some hw)) tr /\
      hw_eventKeyAction hw <> Some 1 /\
      snd c = mkTVRemoteEvent (hw_eventType hw)
                (mapKeyAction (hw_eventKeyAction hw)) (hw_tag hw)) /\
  eventKeyAction (snd c) <> key_up.
Proof.
  revert c. induction tr as [| a tr IH] using rev_ind; intros c; [intros [] |].
  rewrite exec_snoc. intros H.
  assert (Hold : In c (calls (exec tr init)) ->
    (exists host settings, In (Render host settings (fst c)) (tr ++ [a])) /\
    (exists hw : HWEvent,
        In (Emit (Some hw)) (tr ++ [a]) /\
        hw_eventKeyAction hw <> Some 1 /\
        snd c = mkTVRemoteEvent (hw_eventType hw)
                  (mapKeyAction (hw_eventKeyAction hw)) (hw_tag hw)) /\
    eventKeyAction (snd c) <> key_up).
  { intros H0. destruct (IH c H0) as ((host & settings & Hr) & (hw & He & Hhw) & Hup).
    split; [exists host, settings; apply in_or_app; left; exact Hr |].
    split; [exists hw; split; [apply in_or_app; left; exact He | exact Hhw] | exact Hup]. }
  destruct a as [host settings handler | | hwEvent].
  - rewrite calls_step_Render in H. exact (Hold H).
  - rewrite calls_step_Unmount in H. exact (Hold H).
  - cbn [step calls] in H. apply in_app_or in H. destruct H as [H | H]; [exact (Hold H) |].
    apply in_flat_map in H. destruct H as (s & Hs & Hc).
    destruct hwEvent as [hw |]; [| destruct Hc].
    rewrite onHWEvent_payload in Hc.
    destruct (decide (hw_eventKeyAction hw = Some 1)) as [E | E]; [destruct Hc |].
    destruct Hc as [<- | []]. cbn [fst snd].
    split.
    + destruct (enabled_handlers_rendered tr s Hs) as (host & settings & Hr).
      exists host, settings. apply in_or_app. left. exact Hr.
    + split.
      * exists hw. split; [apply in_or_app; right; left; reflexivity |].
        split; [exact E | reflexivity].
      * cbn. intros Hup. apply mapKeyAction_up in Hup. contradiction.
Qed.

Lemma calls_come_from_notifications_witness :
  exists host settings,
    In (Render host settings 7%nat)
       [Render (android_window 1920 1080) (mkSettings None) 7%nat;
        Emit (Some (mkHWEvent "select" (Some 0) (Some 12)))].
Proof.
  apply (calls_come_from_notifications
           [Render (android_window 1920 1080) (mkSettings None) 7%nat;
            Emit (Some (mkHWEvent "select" (Some 0) (Some 12)))]
           (7%nat, mkTVRemoteEvent "select" key_down (Some 12))).
  left. reflexivity.
Defined.

End Traces.

(** ** Further properties of the memoized classification *)

Section MemoizationMore.

Import JS TVDevice.

Lemma renders_isTVDevice_cell (r0 : Host * Settings) (rs : list (Host * Settings)) :
  exists m : Memos,
    renders (r0 :: rs) = Some m /\
    memo_deps (isTVDevice_cell m) = forceTVMode (snd (List.last rs r0)) /\
    exists r, In r (r0 :: rs) /\
              isTVDevice m =
                detectTVDevice (fst r) (default false (memo_deps (isTVDevice_cell m))).
Proof.
  induction rs as [| r' rs IH] using rev_ind.
  - eexists. split; [reflexivity |]. split; [reflexivity |].
    exists r0. split; [left; reflexivity | reflexivity].
  - destruct IH as (m & Hm & _ & r & Hin & Hval).
    change (r0 :: rs ++ [r']) with ((r0 :: rs) ++ [r']).
    rewrite renders_snoc, Hm, last_last. eexists. split; [reflexivity |].
    unfold isTVDevice, useTVDevice, useMemo in *. cbn.
    destruct (decide (memo_deps (isTVDevice_cell m) = forceTVMode (snd r'))) as [E | E].
    + split; [exact E |]. exists r. split; [| exact Hval].
      apply (in_or_app (r0 :: rs) [r']). left. exact Hin.
    + cbn. split; [reflexivity |]. exists r'. split; [| reflexivity].
      apply (in_or_app (r0 :: rs) [r']). right. left. reflexivity.
Qed.

(** X2. After any number of renders the exposed classification is what
    [detectTVDevice] answers for the override of the latest render, on
    the host of one of the renders.  So memoization never hides the
    override (if the latest render has it on, the device counts as a
    TV), and on hosts that all report [Platform.isTV] the
    classification is true. *)
Theorem isTVDevice_follows_override (r0 : Host * Settings) (rs : list (Host * Settings)) :
  exists m : Memos,
    renders (r0 :: rs) = Some m /\
    (exists r, In r (r0 :: rs) /\
               isTVDevice m =
                 detectTVDevice (fst r)
                   (default false (forceTVMode (snd (List.last rs r0))))) /\
    (forceTVMode (snd (List.last rs r0)) = Some true -> isTVDevice m = true) /\
    ((forall r, In r (r0 :: rs) -> isTV (Platform (fst r)) = true) ->
     isTVDevice m = true).
Proof.
  destruct (renders_isTVDevice_cell r0 rs) as (m & Hm & Hdeps & r & Hin & Hval).
  rewrite Hdeps in Hval.
  exists m. split; [exact Hm |]. split; [exists r; split; assumption |]. split.
  - intros Hforce. rewrite Hval, Hforce. reflexivity.
  - intros Hall. rewrite Hval. unfold detectTVDevice. rewrite (Hall r Hin).
    destruct (default false _); reflexivity.
Qed.

End MemoizationMore.

(** ** The navigation rail inside the tab layout *)

Section Rail.

Import JS TVTabLayout TVNavigationRail.

Lemma run_snoc (initialRoute : option string) (evs : list Event) (ev : Event) :
  run initialRoute (evs ++ [ev]) = handle (run initialRoute evs) ev.
Proof. unfold run. rewrite fold_left_app. reflexivity. Qed.

Lemma activeRoute_handleItemPress (st : State) (k : string) :
  activeRoute (handleItemPress st k) = k.
Proof.
  unfold handleItemPress. case_bool_decide as H; cbn; [reflexivity |].
  destruct (decide (k = activeRoute st)) as [-> | Hne]; [reflexivity | contradiction].
Qed.

(** Whether an item is active depends on its key alone, not on its
    position. *)
Lemma active_items_by_key (route : string) (items : list TVNavigationItem)
    (f : nat -> TVNavigationItem -> NavItemProps) :
  (forall i it, isActive (f i it) = bool_decide (route = key it)) ->
  length (filter (fun p => isActive p = true) (imap f items)) =
  length (filter (fun it => route = key it) items).
Proof.
  revert f. induction items as [| x items IH]; intros f Hf; [reflexivity |].
  rewrite imap_cons, !filter_cons, Hf.
  specialize (IH (f ∘ S) (fun i it => Hf (S i) it)).
  destruct (decide (route = key x)) as [E | E].
  - rewrite bool_decide_eq_true_2 by exact E. rewrite decide_True by reflexivity.
    cbn [length]. rewrite IH. reflexivity.
  - rewrite bool_decide_eq_false_2 by exact E. rewrite decide_False by discriminate.
    exact IH.
Qed.

Lemma count_key_NoDup (route : string) (items : list TVNavigationItem) :
  NoDup (key <$> items) ->
  length (filter (fun it => route = key it) items) =
    if bool_decide (route ∈ key <$> items) then 1%nat else 0%nat.
Proof.
  induction items as [| x items IH]; [reflexivity |].
  rewrite fmap_cons, NoDup_cons. intros [Hx Hnd]. specialize (IH Hnd).
  rewrite filter_cons.
  destruct (decide (route = key x)) as [-> | E].
  - cbn [length]. rewrite IH.
    rewrite (bool_decide_eq_false_2 _ Hx).
    rewrite bool_decide_eq_true_2 by (apply elem_of_cons; left; reflexivity).
    reflexivity.
  - rewrite IH. apply (f_equal (fun b : bool => if b then 1%nat else 0%nat)).
    apply bool_decide_ext. rewrite elem_of_cons. tauto.
Qed.

(** X13. The rail never counts as focused.  [isRailFocused] starts false
    and both callbacks of the layout set it to false, so after any
    presses and focus exits no item is rendered with
    [hasTVPreferredFocus] and the rail's opacity animates to 0.7. *)
Theorem rail_never_focused :
  forall (initialRoute : option string) (enableDownloads : bool) (evs : list Event),
    isRailFocused (run initialRoute evs) = false /\
    Forall (fun p => hasTVPreferredFocus p = false)
           (rail enableDownloads (run initialRoute evs)) /\
    railOpacity_toValue (isRailFocused (run initialRoute evs)) = 0.7%float.
Proof.
  intros initialRoute enableDownloads evs.
  assert (Hfalse : isRailFocused (run initialRoute evs) = false).
  { induction evs as [| ev evs _] using rev_ind; [reflexivity |].
    rewrite run_snoc. destruct ev as [k |]; cbn; [| reflexivity].
    unfold handleItemPress. case_bool_decide; reflexivity. }
  split; [exact Hfalse |]. split; [| rewrite Hfalse; reflexivity].
  unfold rail, NavItems. rewrite Hfalse.
  apply Forall_lookup. intros i p Hp.
  rewrite list_lookup_imap in Hp.
  destruct (getNavigationItems enableDownloads !! i); [| discriminate].
  injection Hp as <-. cbn. apply andb_false_r.
Qed.

(** X12. The rail marks one item active when the active route is the key
    of one of its items, and none otherwise.  With downloads disabled
    the route ["Downloads"] has no item, yet its screen is still the
    one rendered. *)
Theorem rail_active_items :
  (forall (enableDownloads : bool) (st : State),
      length (filter (fun p => isActive p = true) (rail enableDownloads st)) =
        if bool_decide (activeRoute st ∈ key <$> getNavigationItems enableDownloads)
        then 1%nat else 0%nat) /\
  (forall p, p ∈ rail false (mount (Some "Downloads")) -> isActive p = false) /\
  render (mount (Some "Downloads")) = VComponent DownloadsScreen.
Proof.
  split; [| split].
  - intros enableDownloads st. unfold rail, NavItems.
    rewrite (active_items_by_key (activeRoute st)) by reflexivity.
    apply count_key_NoDup.
    destruct enableDownloads; compute_done.
  - intros p Hp. unfold rail, NavItems in Hp. cbn in Hp.
    repeat (apply elem_of_cons in Hp; destruct Hp as [-> | Hp]; [reflexivity |]).
    apply elem_of_nil in Hp. destruct Hp.
  - vm_compute. reflexivity.
Qed.

(** Once a render has thrown, the layout stays off screen. *)
Lemma session_failed (evs : list Event) :
  fold_left
    (fun alive ev =>
       match alive with
       | Some st => if render_ok (handle st ev) then Some (handle st ev) else None
       | None => None
       end) evs None = None.
Proof. induction evs as [| ev evs IH]; [reflexivity | exact IH]. Qed.

Lemma session_snoc (initialRoute : option string) (evs : list Event) (ev : Event) :
  session initialRoute (evs ++ [ev]) =
    match session initialRoute evs with
    | Some st => if render_ok (handle st ev) then Some (handle st ev) else None
    | None => None
    end.
Proof. unfold session. rewrite fold_left_app. reflexivity. Qed.

(** X11. While the layout is on screen, pressing a rail item makes
    that item's key the active route and the layout renders the screen
    registered under it, whatever the route and the events before.  A
    layout whose initial route is a property name of [Object.prototype]
    never gets there: its first render throws and it stays off screen. *)
Theorem item_press_shows_its_screen :
  (forall (route : string) (evs : list Event),
      In route Object_prototype -> session (Some route) evs = None) /\
  (forall (initialRoute : option string) (enableDownloads : bool) (evs : list Event)
          (st : State) (it : TVNavigationItem),
      session initialRoute evs = Some st ->
      In it (getNavigationItems enableDownloads) ->
      exists (st1 : State) (c : Component),
        session initialRoute (evs ++ [ItemPress (key it)]) = Some st1 /\
        activeRoute st1 = key it /\
        screen_of (key it) = Some c /\
        render st1 = VComponent c).
Proof.
  split.
  - intros route evs Hroute. unfold session.
    assert (Hfail : render_ok (mount (Some route)) = false).
    { cbn in Hroute.
      repeat (destruct Hroute as [<- | Hroute]; [vm_compute; reflexivity |]).
      destruct Hroute. }
    rewrite Hfail. apply session_failed.
  - intros initialRoute enableDownloads evs st it Hst Hin.
    rewrite session_snoc, Hst. cbn [handle].
    assert (Hscreen : exists c, screen_of (key it) = Some c /\
                                CurrentScreen (key it) = VComponent c).
    { destruct enableDownloads; cbn in Hin;
        repeat (destruct Hin as [<- | Hin]; [eexists; split; vm_compute; reflexivity |]);
        destruct Hin. }
    destruct Hscreen as (c & Hc & Hcur).
    assert (Hrender : render (handleItemPress st (key it)) = VComponent c).
    { unfold render. rewrite activeRoute_handleItemPress. exact Hcur. }
    exists (handleItemPress st (key it)), c.
    unfold render_ok. rewrite Hrender.
    repeat split; [apply activeRoute_handleItemPress | exact Hc].
Qed.

Lemma item_press_shows_its_screen_witness :
  exists (st1 : State) (c : Component),
    session (Some "Profile") ([ItemPress "Library"] ++ [ItemPress "Search"]) = Some st1 /\
    activeRoute st1 = "Search" /\
    screen_of "Search" = Some c /\
    render st1 = VComponent c.
Proof.
  apply (proj2 item_press_shows_its_screen (Some "Profile") true [ItemPress "Library"]
           (mkState "Library" false "Profile") (mkItem "Search" "Search" "search")).
  - vm_compute. reflexivity.
  - right; right; left. reflexivity.
Defined.

End Rail.

(** ** The focusable wrapper *)

Section Focusable.

Import JS TVDevice TVFocusable.

Lemma focusable_run_snoc (host : Host) (p : Props) (evs : list Event) (ev : Event) :
  run host p (evs ++ [ev]) = dispatch host p (run host p evs) ev.
Proof. unfold run. rewrite fold_left_app. reflexivity. Qed.

(** X14. After any focus, blur and press events, on any host, each animated
    value is heading where the focus state says: the scale to
    [focusScale] while focused (if [scaleOnFocus]) and to 1 otherwise,
    the border opacity to 1 while focused (if [showFocusBorder]) and
    to 0 otherwise. *)
Theorem focus_animation_targets (host : Host) (p : Props) (evs : list Event) :
  scaleAnim (run host p evs) =
    (if isFocused (run host p evs) && scaleOnFocus p then focusScale p else 1%float) /\
  borderOpacityAnim (run host p evs) =
    (if isFocused (run host p evs) && showFocusBorder p then 1%float else 0%float).
Proof.
  induction evs as [| ev evs IH] using rev_ind; [split; reflexivity |].
  rewrite focusable_run_snoc. destruct IH as [IHs IHb].
  unfold dispatch, handleFocus, handleBlur, handlePress.
  destruct (isAndroidTV host), ev, (disabled p); cbn;
    try (split; assumption);
    destruct (scaleOnFocus p), (showFocusBorder p); cbn;
    rewrite ?IHs, ?IHb, ?andb_true_r, ?andb_false_r; split; reflexivity.
Qed.

(** X15. [onPress] is called once per press when the element is enabled and
    the callback was passed, and never when the element is disabled,
    on TV and non-TV hosts alike. *)
Theorem press_calls (host : Host) (p : Props) (evs : list Event) :
  length (filter (fun c => c = OnPress) (log (run host p evs))) =
    if negb (disabled p) && onPress p
    then length (filter (fun ev => ev = Press) evs)
    else 0%nat.
Proof.
  induction evs as [| ev evs IH] using rev_ind.
  - destruct (negb (disabled p) && onPress p); reflexivity.
  - rewrite focusable_run_snoc, filter_app, length_app.
    unfold dispatch, handleFocus, handleBlur, handlePress.
    destruct (isAndroidTV host), ev, (disabled p), (onPress p), (onFocus p), (onBlur p);
      cbn in *; rewrite ?filter_app, ?length_app; cbn; rewrite IH;
      repeat (destruct (decide _) as [? | ?]; try discriminate; try congruence);
      cbn; lia.
Qed.

(** X16. On a host that [isAndroidTV] does not take for a TV, focus changes
    reach no handler: the element never becomes focused, no animation
    is started and [onFocus] and [onBlur] are never called.  This holds
    also with the override on, when the hook reports a TV. *)
Theorem focus_inert_off_TV (host : Host) (p : Props) (evs : list Event) :
  isAndroidTV host = false ->
  isFocused (run host p evs) = false /\
  scaleAnim (run host p evs) = 1%float /\
  borderOpacityAnim (run host p evs) = 0%float /\
  (forall c, In c (log (run host p evs)) -> c = OnPress) /\
  isTVDevice (useTVDevice None host (mkSettings (Some true))) = true.
Proof.
  intros Hnot.
  assert (H : isFocused (run host p evs) = false /\
              scaleAnim (run host p evs) = 1%float /\
              borderOpacityAnim (run host p evs) = 0%float /\
              (forall c, In c (log (run host p evs)) -> c = OnPress)).
  { induction evs as [| ev evs IH] using rev_ind.
    - repeat split. intros c [].
    - rewrite focusable_run_snoc. unfold dispatch. rewrite Hnot. cbn [negb].
      destruct ev; [exact IH | exact IH |].
      destruct IH as (Hf & Hs & Hb & Hlog).
      unfold handlePress. destruct (disabled p); cbn; [repeat split; assumption |].
      repeat split; try assumption.
      destruct (onPress p); [| exact Hlog].
      intros c Hc. apply in_app_or in Hc.
      destruct Hc as [Hc | [<- | []]]; [exact (Hlog c Hc) | reflexivity]. }
  destruct H as (Hf & Hs & Hb & Hlog). repeat split; try assumption.
Qed.

Lemma focus_inert_off_TV_witness :
  isFocused
    (run (android_window 1080 1920) (mkProps false true 1.05 true true true true)
       [Focus; Press; Blur; Focus]) = false.
Proof.
  apply (focus_inert_off_TV (android_window 1080 1920)
           (mkProps false true 1.05 true true true true) [Focus; Press; Blur; Focus]).
  vm_compute. reflexivity.
Defined.

End Focusable.

(** ** The fallback of the tab layout, at a route *)

Section TabLayoutFallback.

Import TVTabLayout.

Lemma CurrentScreen_fallback_witness :
  CurrentScreen "Profile" = VComponent HomeScreen.
Proof.
  apply (CurrentScreen_fallback "Profile"); cbn; intuition discriminate.
Defined.

End TabLayoutFallback.

(** ** The lifecycle with any number of consumers *)

Section ConsumersLifecycle.

Import TVDevice Consumers.

Lemma filter_all {A : Type} (P : A -> Prop) `{forall x, Decision (P x)} (l : list A) :
  Forall P l -> filter P l = l.
Proof.
  induction 1 as [| x l Hx _ IH]; [reflexivity |].
  rewrite filter_cons, decide_True by exact Hx. rewrite IH. reflexivity.
Qed.

(** The subscriptions of the mounted components, one component set
    apart. *)
Lemma subscriptions_lookup (m : gmap CompId Component) (c : CompId) (comp : Component) :
  m !! c = Some comp ->
  subscriptions m ≡ₚ
    option_list (subscription_of comp) ++ subscriptions (delete c m).
Proof.
  intros Hc. unfold subscriptions at 1.
  rewrite <- (map_to_list_delete m c comp Hc). cbn.
  destruct (subscription_of comp); reflexivity.
Qed.

Lemma subscriptions_insert (m : gmap CompId Component) (c : CompId) (comp : Component) :
  subscriptions (<[c := comp]> m) ≡ₚ
    option_list (subscription_of comp) ++ subscriptions (delete c m).
Proof.
  rewrite <- (insert_delete_eq m c comp). unfold subscriptions at 1.
  rewrite map_to_list_insert by apply lookup_delete_eq. cbn.
  destruct (subscription_of comp); reflexivity.
Qed.

Lemma subscriptions_delete_None (m : gmap CompId Component) (c : CompId) :
  m !! c = None -> subscriptions (delete c m) = subscriptions m.
Proof. intros Hc. rewrite delete_id by exact Hc. reflexivity. Qed.

(** Disabling the object of a subscription removes that subscription
    and no other. *)
Lemma disable_owned (obj : ObjId) (h : Handler) (l rest : list (ObjId * Handler)) :
  l ≡ₚ (obj, h) :: rest -> NoDup (fst <$> l) -> disable obj l ≡ₚ rest.
Proof.
  intros Hp Hnd. unfold disable. rewrite Hp. rewrite Hp in Hnd.
  rewrite fmap_cons in Hnd. apply NoDup_cons in Hnd as [Hnot _].
  rewrite filter_cons, decide_False by (cbn; intros Hne; apply Hne; reflexivity).
  rewrite filter_all; [reflexivity |].
  apply Forall_forall. intros x Hx Heq. apply Hnot.
  apply list_elem_of_fmap. exists x. split; [symmetry; exact Heq | exact Hx].
Qed.

Lemma elem_of_disable (obj : ObjId) (l : list (ObjId * Handler)) x :
  x ∈ disable obj l -> x ∈ l /\ fst x <> obj.
Proof. unfold disable. rewrite list_elem_of_filter. tauto. Qed.

(** The cleanup of a component that calls [useRemoteHandler] once
    removes its subscription and no other. *)
Lemma once_cleanup (s : System) (c : CompId) (comp : Component) (r : EffectRecord)
    (m : Memos) :
  once_inv s ->
  components s !! c = Some comp ->
  comp_effects comp = [r] ->
  let w0 := store s m (comp_ref comp) in
  let w1 := if effect_cleanup r then remoteEffect_cleanup w0 else w0 in
  next_id w1 = sys_next_id s /\
  calls w1 = sys_calls s /\
  tvEventHandlerRef w1 = None /\
  enabled w1 =
    match comp_ref comp with
    | Some obj => disable obj (sys_enabled s)
    | None => sys_enabled s
    end /\
  enabled w1 ≡ₚ subscriptions (delete c (components s)) /\
  NoDup (fst <$> enabled w1) /\
  (forall x, x ∈ enabled w1 -> (fst x < sys_next_id s)%nat).
Proof.
  intros (Hok & Hperm & Hnd & Hlt) Hc Hr w0 w1.
  destruct (Hok c comp Hc) as (r0 & Hr0 & _ & _ & Href).
  rewrite Hr in Hr0. injection Hr0 as <-.
  pose proof (subscriptions_lookup _ _ _ Hc) as Hsub.
  unfold subscription_of in Hsub. rewrite Hr in Hsub.
  subst w1 w0. unfold remoteEffect_cleanup, store. cbn.
  destruct (effect_cleanup r).
  - destruct Href as [obj Hobj]. rewrite Hobj in *. cbn in *.
    rewrite Hsub in Hperm.
    pose proof (disable_owned _ _ _ _ Hperm Hnd) as Hdis.
    repeat split; try reflexivity.
    + exact Hdis.
    + rewrite Hdis. rewrite Hperm in Hnd. rewrite fmap_cons in Hnd.
      apply NoDup_cons in Hnd as [_ Hnd]. exact Hnd.
    + intros x Hx. apply elem_of_disable in Hx as [Hx _]. apply Hlt, Hx.
  - rewrite Href in *. cbn in *. rewrite Hsub in Hperm.
    repeat split; try reflexivity; assumption.
Qed.

(** Running the effect body of component [c] on a store where [c]
    holds no subscription. *)
Lemma once_establish (comps : gmap CompId Component) (c : CompId) (m : Memos)
    (handler : Handler) (w1 : World) :
  (forall c0 comp, delete c comps !! c0 = Some comp -> comp_ok comp) ->
  tvEventHandlerRef w1 = None ->
  enabled w1 ≡ₚ subscriptions (delete c comps) ->
  NoDup (fst <$> enabled w1) ->
  (forall x, x ∈ enabled w1 -> (fst x < next_id w1)%nat) ->
  once_inv
    (mkSystem (next_id (remoteEffect_body handler (isTVDevice m) w1).1)
       (enabled (remoteEffect_body handler (isTVDevice m) w1).1)
       (calls (remoteEffect_body handler (isTVDevice m) w1).1)
       (<[c := mkComponent m
                (tvEventHandlerRef (remoteEffect_body handler (isTVDevice m) w1).1)
                [mkEffect (handler, isTVDevice m)
                   (remoteEffect_body handler (isTVDevice m) w1).2]]> comps)).
Proof.
  intros Hok Href Hperm Hnd Hlt.
  unfold remoteEffect_body, once_inv. cbn [sys_enabled sys_next_id components].
  assert (Hcomps : forall comp0,
             comp_ok comp0 ->
             forall c0 comp, <[c := comp0]> comps !! c0 = Some comp -> comp_ok comp).
  { intros comp0 H0 c0 comp Hin. apply lookup_insert_Some in Hin.
    destruct Hin as [[_ <-] | [Hne Hin]]; [exact H0 |].
    apply (Hok c0). rewrite lookup_delete_ne by exact Hne. exact Hin. }
  destruct (isTVDevice m) eqn:HTV; cbn.
  - split; [| split; [| split]].
    + apply Hcomps. exists (mkEffect (handler, true) true). cbn.
      rewrite HTV. repeat split. eexists; reflexivity.
    + rewrite subscriptions_insert. cbn. rewrite <- Hperm.
      symmetry. apply Permutation_cons_append.
    + rewrite fmap_app. apply NoDup_app. split; [exact Hnd |]. split.
      * intros x Hx Hx1. cbn in Hx1. apply list_elem_of_singleton in Hx1. subst x.
        apply list_elem_of_fmap in Hx as (y & Hy & Hin). apply Hlt in Hin.
        unfold ObjId in *. lia.
      * cbn. apply NoDup_singleton.
    + intros x Hx. apply elem_of_app in Hx as [Hx | Hx].
      * apply Hlt in Hx. lia.
      * apply list_elem_of_singleton in Hx. subst x. cbn. lia.
  - split; [| split; [| split]].
    + apply Hcomps. exists (mkEffect (handler, false) false). cbn.
      rewrite HTV, Href. repeat split.
    + rewrite subscriptions_insert. cbn. rewrite Href. cbn. exact Hperm.
    + exact Hnd.
    + exact Hlt.
Qed.

(** The three ways a render with one [useRemoteHandler] call goes. *)
Lemma cstep_CRender_mount (s : System) c host settings handler :
  components s !! c = None ->
  let m := useTVDevice None host settings in
  let b := remoteEffect_body handler (isTVDevice m) (store s m None) in
  cstep (CRender c host settings [handler]) s =
    mkSystem (next_id b.1) (enabled b.1) (calls b.1)
      (<[c := mkComponent m (tvEventHandlerRef b.1)
                [mkEffect (handler, isTVDevice m) b.2]]> (components s)).
Proof.
  intros Hc m b. subst b m. unfold cstep. rewrite Hc. cbn.
  destruct (remoteEffect_body _ _ _) as [w2 cf]. reflexivity.
Qed.

Lemma cstep_CRender_same (s : System) c comp r host settings handler :
  components s !! c = Some comp ->
  comp_effects comp = [r] ->
  let m := useTVDevice (Some (comp_memos comp)) host settings in
  effect_deps r = (handler, isTVDevice m) ->
  cstep (CRender c host settings [handler]) s =
    mkSystem (sys_next_id s) (sys_enabled s) (sys_calls s)
      (<[c := mkComponent m (comp_ref comp) [r]]> (components s)).
Proof.
  intros Hc Hr m Hdeps. subst m. unfold cstep. rewrite Hc, Hr. cbn.
  unfold cleanup_cell, body_cell. rewrite !decide_True by exact Hdeps. reflexivity.
Qed.

Lemma cstep_CRender_changed (s : System) c comp r host settings handler :
  components s !! c = Some comp ->
  comp_effects comp = [r] ->
  let m := useTVDevice (Some (comp_memos comp)) host settings in
  effect_deps r <> (handler, isTVDevice m) ->
  let w0 := store s m (comp_ref comp) in
  let w1 := if effect_cleanup r then remoteEffect_cleanup w0 else w0 in
  let b := remoteEffect_body handler (isTVDevice m) w1 in
  cstep (CRender c host settings [handler]) s =
    mkSystem (next_id b.1) (enabled b.1) (calls b.1)
      (<[c := mkComponent m (tvEventHandlerRef b.1)
                [mkEffect (handler, isTVDevice m) b.2]]> (components s)).
Proof.
  intros Hc Hr m Hdeps w0 w1 b. subst b w1 w0 m. unfold cstep. rewrite Hc, Hr. cbn.
  unfold cleanup_cell, body_cell. rewrite !decide_False by exact Hdeps. cbn.
  destruct (remoteEffect_body _ _ _) as [w2 cf]. reflexivity.
Qed.

Lemma cstep_CUnmount_once (s : System) c comp r :
  components s !! c = Some comp ->
  comp_effects comp = [r] ->
  let w0 := store s (comp_memos comp) (comp_ref comp) in
  let w1 := if effect_cleanup r then remoteEffect_cleanup w0 else w0 in
  cstep (CUnmount c) s =
    mkSystem (next_id w1) (enabled w1) (calls w1) (delete c (components s)).
Proof.
  intros Hc Hr w0 w1. subst w1 w0. unfold cstep. rewrite Hc, Hr. reflexivity.
Qed.

Lemma once_inv_init : once_inv sys_init.
Proof.
  split; [| split; [| split]].
  - intros c comp Hc. unfold sys_init in Hc. cbn [components] in Hc.
    rewrite lookup_empty in Hc. discriminate.
  - unfold subscriptions, sys_init. cbn [components sys_enabled].
    rewrite map_to_list_empty. reflexivity.
  - apply NoDup_nil_2.
  - intros x Hx. apply elem_of_nil in Hx. destruct Hx.
Qed.

Lemma once_inv_step (a : Action) (s : System) :
  once a -> once_inv s -> once_inv (cstep a s).
Proof.
  intros Honce Hinv. pose proof Hinv as (Hok & Hperm & Hnd & Hlt).
  assert (Hdel : forall c c0 comp,
             delete c (components s) !! c0 = Some comp -> comp_ok comp).
  { intros c c0 comp Hin. apply lookup_delete_Some in Hin as [_ Hin].
    apply (Hok c0 comp Hin). }
  destruct a as [c host settings handlers | c | hwEvent].
  - cbn in Honce. destruct handlers as [| handler [| ? ?]]; try discriminate.
    destruct (components s !! c) as [comp |] eqn:Hc.
    + destruct (Hok c comp Hc) as (r & Hr & HTV & Hflag & Href).
      destruct (decide (effect_deps r =
                  (handler, isTVDevice (useTVDevice (Some (comp_memos comp)) host settings))))
        as [Hdeps | Hdeps].
      * rewrite (cstep_CRender_same s c comp r host settings handler Hc Hr Hdeps).
        split; [| split; [| split]]; cbn; try assumption.
        -- intros c0 comp0 Hin. apply lookup_insert_Some in Hin.
           destruct Hin as [[_ <-] | [_ Hin]]; [| apply (Hok c0 comp0 Hin)].
           exists r. cbn. rewrite Hdeps. cbn. repeat split.
           ++ rewrite Hflag, Hdeps. reflexivity.
           ++ exact Href.
        -- rewrite subscriptions_insert, Hperm, (subscriptions_lookup _ _ _ Hc).
           unfold subscription_of. cbn. rewrite Hr. reflexivity.
      * rewrite (cstep_CRender_changed s c comp r host settings handler Hc Hr Hdeps).
        destruct (once_cleanup s c comp r
                    (useTVDevice (Some (comp_memos comp)) host settings) Hinv Hc Hr)
          as (Hn & _ & Href1 & _ & Hperm1 & Hnd1 & Hlt1).
        apply once_establish; try assumption.
        -- apply Hdel.
        -- rewrite Hn. exact Hlt1.
    + rewrite (cstep_CRender_mount s c host settings handler Hc).
      apply once_establish; cbn; try assumption; try reflexivity.
      * apply Hdel.
      * rewrite (subscriptions_delete_None _ _ Hc). exact Hperm.
  - destruct (components s !! c) as [comp |] eqn:Hc;
      [| unfold cstep; rewrite Hc; exact Hinv].
    destruct (Hok c comp Hc) as (r & Hr & _).
    rewrite (cstep_CUnmount_once s c comp r Hc Hr).
    destruct (once_cleanup s c comp r (comp_memos comp) Hinv Hc Hr)
      as (Hn & _ & _ & _ & Hperm1 & Hnd1 & Hlt1).
    split; [| split; [| split]]; cbn [components sys_enabled sys_next_id].
    + apply Hdel.
    + exact Hperm1.
    + exact Hnd1.
    + rewrite Hn. exact Hlt1.
  - exact Hinv.
Qed.

Lemma creachable_once_inv (s : System) : creachable_once s -> once_inv s.
Proof.
  induction 1 as [| a s _ IH Honce]; [exact once_inv_init |].
  apply once_inv_step; assumption.
Qed.

Lemma length_subscriptions (m : gmap CompId Component) :
  (length (subscriptions m) <= size m)%nat.
Proof.
  rewrite <- length_map_to_list. unfold subscriptions.
  induction (map_to_list m) as [| kc l IH]; cbn; [lia |].
  destruct (subscription_of (snd kc)); cbn; lia.
Qed.

Lemma cexec_CEmit_unsubscribed (ns : list (option HWEvent)) (s : System) :
  sys_enabled s = [] ->
  sys_calls (cexec (map CEmit ns) s) = sys_calls s.
Proof.
  revert s. induction ns as [| n ns IH]; intros s Hs; [reflexivity |].
  cbn [map cexec fold_left]. fold (cexec (map CEmit ns) (cstep (CEmit n) s)).
  rewrite IH by exact Hs. cbn. rewrite Hs. cbn. apply app_nil_r.
Qed.

(** C8, as the code behaves.  Among components that each call
    [useRemoteHandler] once per render, in every reachable state the
    live subscriptions are those of the mounted components, at most one
    each.  Re-rendering a component with another handler first removes
    that component's subscription and no other, then adds the one for
    the new handler if the device still counts as a TV.  Unmounting the
    only mounted component leaves no subscription, and notifications
    emitted afterwards call no handler. *)
Theorem consumers_subscription_lifecycle (s : System) :
  creachable_once s ->
  sys_enabled s ≡ₚ subscriptions (components s) /\
  (length (sys_enabled s) <= size (components s))%nat /\
  (forall c comp r host settings handler,
      components s !! c = Some comp ->
      comp_effects comp = [r] ->
      fst (effect_deps r) <> handler ->
      let torn_down :=
        match comp_ref comp with
        | Some obj => disable obj (sys_enabled s)
        | None => sys_enabled s
        end in
      torn_down ≡ₚ subscriptions (delete c (components s)) /\
      sys_enabled (cstep (CRender c host settings [handler]) s) =
        torn_down ++
        if isTVDevice (useTVDevice (Some (comp_memos comp)) host settings)
        then [(sys_next_id s, handler)] else []) /\
  (forall c comp,
      components s = {[ c := comp ]} ->
      sys_enabled (cstep (CUnmount c) s) = [] /\
      forall ns : list (option HWEvent),
        sys_calls (cexec (map CEmit ns) (cstep (CUnmount c) s)) =
        sys_calls (cstep (CUnmount c) s)).
Proof.
  intros Hreach. apply creachable_once_inv in Hreach.
  pose proof Hreach as (Hok & Hperm & Hnd & Hlt).
  split; [exact Hperm |]. split; [rewrite Hperm; apply length_subscriptions |]. split.
  - intros c comp r host settings handler Hc Hr Hne torn_down.
    destruct (once_cleanup s c comp r
                (useTVDevice (Some (comp_memos comp)) host settings) Hreach Hc Hr)
      as (Hn & _ & _ & Hen & Hperm1 & _).
    assert (Hdeps : effect_deps r <>
              (handler, isTVDevice (useTVDevice (Some (comp_memos comp)) host settings))).
    { intros E. apply Hne. rewrite E. reflexivity. }
    rewrite (cstep_CRender_changed s c comp r host settings handler Hc Hr Hdeps).
    subst torn_down. rewrite <- Hen. split; [exact Hperm1 |].
    unfold remoteEffect_body. cbn [sys_enabled].
    destruct (isTVDevice _); cbn; [rewrite Hn; reflexivity | rewrite app_nil_r; reflexivity].
  - intros c comp Hs.
    assert (Hc : components s !! c = Some comp) by (rewrite Hs; apply lookup_singleton_eq).
    destruct (Hok c comp Hc) as (r & Hr & _).
    assert (Hnil : sys_enabled (cstep (CUnmount c) s) = []).
    { rewrite (cstep_CUnmount_once s c comp r Hc Hr).
      destruct (once_cleanup s c comp r (comp_memos comp) Hreach Hc Hr)
        as (_ & _ & _ & _ & Hperm1 & _).
      cbn [sys_enabled]. rewrite Hs, delete_singleton_eq in Hperm1.
      unfold subscriptions in Hperm1. rewrite map_to_list_empty in Hperm1.
      apply Permutation_nil_r. exact Hperm1. }
    split; [exact Hnil |]. intros ns. apply cexec_CEmit_unsubscribed, Hnil.
Qed.

Lemma consumers_subscription_lifecycle_witness :
  let s := cstep (CRender 0%nat (android_window 1920 1080) (mkSettings None) [7%nat])
             sys_init in
  sys_enabled s ≡ₚ subscriptions (components s) /\
  (length (sys_enabled s) <= size (components s))%nat.
Proof.
  intros s.
  destruct (consumers_subscription_lifecycle s) as (H1 & H2 & _).
  - apply creachable_once_step; [apply creachable_once_init | reflexivity].
  - split; assumption.
Defined.

(** C8, as stated, fails.  Two components, each calling
    [useRemoteHandler] once on a TV, hold two live subscriptions at the
    same time, and one notification then calls both handlers. *)
Lemma two_consumers_two_subscriptions :
  let s := cexec [CRender 0%nat (android_window 1920 1080) (mkSettings None) [7%nat];
                  CRender 1%nat (android_window 1920 1080) (mkSettings None) [8%nat]]
             sys_init in
  creachable_once s /\
  sys_enabled s = [(0%nat, 7%nat); (1%nat, 8%nat)] /\
  length (sys_enabled s) = 2%nat /\
  sys_calls (cstep (CEmit (Some (mkHWEvent "select" (Some 0) None))) s) =
    [(7%nat, mkTVRemoteEvent "select" key_down None);
     (8%nat, mkTVRemoteEvent "select" key_down None)].
Proof.
  split; [| repeat split; vm_compute; reflexivity].
  apply (creachable_once_step (CRender 1%nat _ _ [8%nat])); [| reflexivity].
  apply (creachable_once_step (CRender 0%nat _ _ [7%nat])); [| reflexivity].
  apply creachable_once_init.
Qed.

(** For a component that calls [useRemoteHandler] once, holding a
    subscription and being classified as a TV are the same. *)
Lemma comp_ok_subscription (comp : Component) :
  comp_ok comp ->
  snd <$> subscription_of comp = handler_if_TV comp /\
  (is_Some (subscription_of comp) <-> isTVDevice (comp_memos comp) = true).
Proof.
  intros (r & Hr & HTV & Hflag & Href).
  unfold subscription_of, handler_if_TV. rewrite Hr, <- HTV, <- Hflag. cbn.
  destruct (effect_cleanup r).
  - destruct Href as [obj ->]. cbn. split; [reflexivity |].
    split; [reflexivity | intros _; eexists; reflexivity].
  - rewrite Href. cbn. split; [reflexivity |].
    split; [intros [x Hx]; discriminate | discriminate].
Qed.

Lemma once_inv_components (s : System) :
  once_inv s -> Forall (fun kc => comp_ok (snd kc)) (map_to_list (components s)).
Proof.
  intros (Hok & _). apply Forall_forall. intros [c comp] Hin.
  apply elem_of_map_to_list in Hin. apply (Hok c comp Hin).
Qed.

Lemma subscriptions_count (l : list (CompId * Component)) :
  Forall (fun kc => comp_ok (snd kc)) l ->
  length (omap (fun kc => subscription_of (snd kc)) l) =
    length (filter (fun kc => isTVDevice (comp_memos (snd kc)) = true) l) /\
  snd <$> omap (fun kc => subscription_of (snd kc)) l =
    omap (fun kc => handler_if_TV (snd kc)) l.
Proof.
  induction 1 as [| kc l Hkc _ [IH1 IH2]]; [split; reflexivity |].
  destruct (comp_ok_subscription _ Hkc) as [Hh HTV].
  cbn [omap list_omap]. rewrite filter_cons. rewrite <- Hh.
  destruct (subscription_of (snd kc)) as [x |] eqn:Hsub; cbn.
  - rewrite decide_True by (apply HTV; eexists; reflexivity).
    cbn. rewrite IH1, IH2. split; reflexivity.
  - rewrite decide_False
      by (intros E; apply HTV in E; destruct E as [x E]; discriminate).
    split; assumption.
Qed.

Lemma subscriptions_match_TV_components_aux (s : System) :
  creachable_once s ->
  length (sys_enabled s) = length (mounted_as_TV (components s)).
Proof.
  intros Hreach. apply creachable_once_inv in Hreach.
  pose proof (once_inv_components s Hreach) as Hall.
  destruct Hreach as (_ & Hperm & _). rewrite Hperm.
  apply (subscriptions_count _ Hall).
Qed.

(** X3. Among components that each call [useRemoteHandler] once per
    render, there are in every reachable state as many live
    subscriptions as mounted components whose hook classifies the
    device as a TV. *)
Theorem subscriptions_match_TV_components (s : System) :
  creachable_once s ->
  length (sys_enabled s) = length (mounted_as_TV (components s)).
Proof. apply subscriptions_match_TV_components_aux. Qed.

Lemma subscriptions_match_TV_components_witness :
  length (sys_enabled
            (cstep (CRender 3%nat (android_window 1920 1080) (mkSettings None) [7%nat])
               sys_init)) =
  length (mounted_as_TV
            (components
               (cstep (CRender 3%nat (android_window 1920 1080) (mkSettings None) [7%nat])
                  sys_init))).
Proof.
  apply subscriptions_match_TV_components.
  apply creachable_once_step; [apply creachable_once_init | reflexivity].
Defined.

(** X4. Among components that each call [useRemoteHandler] once per
    render, the handlers a notification can reach are, in every
    reachable state, the handlers last passed by the mounted components
    classified as a TV, one for each; and after a render of component
    [c] the handler of [c] is the one just passed. *)
Theorem live_handlers_are_latest (s : System) :
  creachable_once s ->
  snd <$> sys_enabled s ≡ₚ
    omap (fun kc => handler_if_TV (snd kc)) (map_to_list (components s)) /\
  (forall c host settings handler,
      exists comp,
        components (cstep (CRender c host settings [handler]) s) !! c = Some comp /\
        handler_if_TV comp =
          if isTVDevice (useTVDevice (comp_memos <$> components s !! c) host settings)
          then Some handler else None).
Proof.
  intros Hreach. apply creachable_once_inv in Hreach.
  pose proof (once_inv_components s Hreach) as Hall.
  pose proof Hreach as (Hok & Hperm & _).
  split.
  - rewrite Hperm. unfold subscriptions.
    rewrite (proj2 (subscriptions_count _ Hall)). reflexivity.
  - intros c host settings handler.
    destruct (components s !! c) as [comp |] eqn:Hc.
    + destruct (Hok c comp Hc) as (r & Hr & _).
      destruct (decide (effect_deps r =
                  (handler, isTVDevice (useTVDevice (Some (comp_memos comp)) host settings))))
        as [Hdeps | Hdeps].
      * rewrite (cstep_CRender_same s c comp r host settings handler Hc Hr Hdeps).
        eexists. cbn [components]. split; [apply lookup_insert_eq |].
        unfold handler_if_TV. cbn. rewrite Hdeps. reflexivity.
      * rewrite (cstep_CRender_changed s c comp r host settings handler Hc Hr Hdeps).
        eexists. cbn [components]. split; [apply lookup_insert_eq |]. reflexivity.
    + rewrite (cstep_CRender_mount s c host settings handler Hc).
      eexists. cbn [components]. split; [apply lookup_insert_eq |]. reflexivity.
Qed.

Lemma live_handlers_are_latest_witness :
  snd <$> sys_enabled
            (cstep (CRender 3%nat (android_window 1080 1920) (mkSettings (Some true))
                      [9%nat]) sys_init) ≡ₚ
  omap (fun kc => handler_if_TV (snd kc))
    (map_to_list
       (components
          (cstep (CRender 3%nat (android_window 1080 1920) (mkSettings (Some true))
                    [9%nat]) sys_init))).
Proof.
  apply live_handlers_are_latest.
  apply creachable_once_step; [apply creachable_once_init | reflexivity].
Defined.




(** The lifecycle of one registration is the system with the single
    component 0 calling [useRemoteHandler] once: the two step functions
    agree, so every state of the former is a state of the latter. *)
Lemma lift_step (a : TVDevice.Action) (w : World) :
  lifecycle_inv w -> lift (step a w) = cstep (lift_action a) (lift w).
Proof.
  intros Hinv. unfold lifecycle_inv in Hinv.
  destruct w as [n en cs mo ref eff]. cbn in Hinv.
  destruct eff as [[deps flag] |].
  - destruct Hinv as [(m0 & -> & _) Hshape]. cbn in Hshape.
    assert (Hlook : components (lift (mkWorld n en cs (Some m0) ref
                                         (Some (mkEffect deps flag)))) !! 0%nat =
                    Some (mkComponent m0 ref [mkEffect deps flag])).
    { unfold lift. cbn. apply lookup_singleton_eq. }
    destruct a as [host settings handler | | hwEvent].
    + cbn [lift_action].
      destruct (decide (deps = (handler,
                  isTVDevice (useTVDevice (Some m0) host settings)))) as [Hdeps | Hdeps].
      * rewrite (cstep_CRender_same _ _ _ _ host settings handler Hlook eq_refl Hdeps).
        unfold step, useEffect_commit, lift. cbn.
        rewrite decide_True by exact Hdeps. cbn. rewrite insert_singleton_eq.
        reflexivity.
      * rewrite (cstep_CRender_changed _ _ _ _ host settings handler Hlook eq_refl Hdeps).
        unfold step, useEffect_commit, lift. cbn.
        rewrite decide_False by exact Hdeps.
        unfold remoteEffect_run, remoteEffect_body, remoteEffect_cleanup, store. cbn.
        destruct flag, ref as [obj |],
          (isTVDevice (useTVDevice (Some m0) host settings));
          cbn; rewrite insert_singleton_eq; reflexivity.
    + cbn [lift_action].
      rewrite (cstep_CUnmount_once _ _ _ _ Hlook eq_refl).
      unfold step, lift, remoteEffect_cleanup, store. cbn.
      destruct flag, ref as [obj |]; cbn; rewrite delete_singleton_eq; reflexivity.
    + reflexivity.
  - destruct Hinv as (-> & -> & ->).
    destruct a as [host settings handler | | hwEvent].
    + cbn [lift_action].
      rewrite cstep_CRender_mount by (unfold lift; cbn; apply lookup_empty).
      unfold step, useEffect_commit, remoteEffect_run, remoteEffect_body, lift, store.
      cbn -[useTVDevice isTVDevice].
      destruct (isTVDevice (useTVDevice None host settings));
        cbn -[useTVDevice isTVDevice]; rewrite insert_empty; reflexivity.
    + unfold lift, cstep. cbn. rewrite lookup_empty. reflexivity.
    + reflexivity.
Qed.

Lemma reachable_lift (w : World) : reachable w -> creachable_once (lift w).
Proof.
  induction 1 as [| a w Hw IH]; [apply creachable_once_init |].
  rewrite (lift_step a w (reachable_inv w Hw)).
  apply creachable_once_step; [exact IH |]. destruct a; reflexivity.
Qed.




End ConsumersLifecycle.
